(** * Passwordless client SDK: request building and error normalization

    A shallow embedding of [passwordless/models.py] and
    [passwordless/client.py], together with the properties of the request
    builder, the error normalizer, the list operations and the client
    builder.

    Text ([str]) is a [string] of UTF-8 bytes, a Python [dict] with string
    keys is a [gmap string _], a Python [list] is a [list], [int] is [Z] and
    a naive [datetime] is the number of microseconds since the epoch. *)

From Stdlib Require Import ZArith NArith String Ascii List DecimalString Lia.
From stdpp Require Import base option gmap strings list.

Set Warnings "-register-all".
Open Scope Z_scope.

(* ===================================================================== *)
(** ** Characters and text *)
(* ===================================================================== *)

Module Text.

Definition dquote : ascii := "034"%char.
Definition backslash : ascii := "092"%char.

Definition code (c : ascii) : N := N_of_ascii c.

Definition is_digit (c : ascii) : bool := (48 <=? code c)%N && (code c <=? 57)%N.

Definition digit_value (c : ascii) : Z := Z.of_N (code c) - 48.

Definition is_upper (c : ascii) : bool := (65 <=? code c)%N && (code c <=? 90)%N.

(** [str.lower] on the ASCII letters; bytes of other characters are kept. *)
Definition lower_char (c : ascii) : ascii :=
  if is_upper c then ascii_of_N (code c + 32) else c.

Fixpoint lower (s : string) : string :=
  match s with
  | EmptyString => EmptyString
  | String c s' => String (lower_char c) (lower s')
  end.

Definition upper_char (c : ascii) : ascii :=
  if (97 <=? code c)%N && (code c <=? 122)%N then ascii_of_N (code c - 32) else c.

(** [s.startswith(p)] *)
Definition startswith (s p : string) : bool := String.prefix p s.

Definition hex_digit (n : N) : ascii :=
  if (n <? 10)%N then ascii_of_N (48 + n) else ascii_of_N (87 + n).

Definition hex_value (c : ascii) : option N :=
  let n := code c in
  if is_digit c then Some (n - 48)%N
  else if (97 <=? n)%N && (n <=? 102)%N then Some (n - 87)%N
  else if (65 <=? n)%N && (n <=? 70)%N then Some (n - 55)%N
  else None.

(** The four lower-case hexadecimal digits of a 16-bit code unit. *)
Definition hex4 (n : N) : list ascii :=
  [ hex_digit (N.land (N.shiftr n 12) 15); hex_digit (N.land (N.shiftr n 8) 15);
    hex_digit (N.land (N.shiftr n 4) 15); hex_digit (N.land n 15) ].

(** UTF-8 bytes of a code point. *)
Definition utf8_encode (cp : N) : list ascii :=
  let cont (k : N) := ascii_of_N (N.lor 128 (N.land (N.shiftr cp k) 63)) in
  if (cp <? 128)%N then [ascii_of_N cp]
  else if (cp <? 2048)%N then [ascii_of_N (N.lor 192 (N.shiftr cp 6)); cont 0%N]
  else if (cp <? 65536)%N then
    [ascii_of_N (N.lor 224 (N.shiftr cp 12)); cont 6%N; cont 0%N]
  else [ascii_of_N (N.lor 240 (N.shiftr cp 18)); cont 12%N; cont 6%N; cont 0%N].

Definition is_high_surrogate (u : N) : bool := (55296 <=? u)%N && (u <=? 56319)%N.
Definition is_low_surrogate (u : N) : bool := (56320 <=? u)%N && (u <=? 57343)%N.

Definition string_of_Z (n : Z) : string := NilZero.string_of_int (Z.to_int n).

(** Text written with apostrophes where the wire has double quotes. *)
Definition dq (s : string) : string :=
  string_of_list_ascii
    (List.map (fun c => if Ascii.eqb c "'"%char then dquote else c)
       (list_ascii_of_string s)).

(** [continuation c]: the payload of a UTF-8 continuation byte. *)
Definition continuation (c : ascii) : option N :=
  if (N.land (code c) 192 =? 128)%N then Some (N.land (code c) 63) else None.

End Text.

(* ===================================================================== *)
(** ** JSON documents *)
(* ===================================================================== *)

Module Json.
Import Text.

(** A decoded JSON document.  An object keeps its members in document
    order; [member] gives the value a Python [dict] would hold for a key
    (the last occurrence wins).  A number with a fraction or an exponent
    is kept as its lexeme. *)
Inductive json : Type :=
| JNull
| JBool (b : bool)
| JInt (n : Z)
| JFloat (lexeme : string)
| JStr (s : string)
| JArr (items : list json)
| JObj (members : list (string * json)).

Fixpoint member (k : string) (ms : list (string * json)) : option json :=
  match ms with
  | [] => None
  | (k', v) :: rest =>
      match member k rest with
      | Some v' => Some v'
      | None => if String.eqb k k' then Some v else None
      end
  end.

Inductive token : Type :=
| TLBrace | TRBrace | TLBracket | TRBracket | TColon | TComma
| TAtom (j : json).

Definition is_ws (c : ascii) : bool :=
  let n := code c in ((n =? 32) || (n =? 9) || (n =? 10) || (n =? 13))%N.

(** One element of a string literal: a literal byte or a [\uXXXX] unit. *)
Inductive unit16 : Type := Byte (c : ascii) | Unit (u : N).

Definition simple_escape (e : ascii) : option ascii :=
  let n := code e in
  if (n =? 34)%N then Some dquote
  else if (n =? 92)%N then Some backslash
  else if (n =? 47)%N then Some "/"%char
  else if (n =? 98)%N then Some "008"%char
  else if (n =? 102)%N then Some "012"%char
  else if (n =? 110)%N then Some "010"%char
  else if (n =? 114)%N then Some "013"%char
  else if (n =? 116)%N then Some "009"%char
  else None.

Definition hex4_value (h1 h2 h3 h4 : ascii) : option N :=
  a ← hex_value h1; b ← hex_value h2; c ← hex_value h3; d ← hex_value h4;
  Some (((a * 16 + b) * 16 + c) * 16 + d)%N.

(** The body of a string literal, after its opening quote. *)
Fixpoint lex_string (cs : list ascii) (acc : list unit16)
  : option (list unit16 * list ascii) :=
  match cs with
  | [] => None
  | c :: rest =>
      if Ascii.eqb c dquote then Some (rev acc, rest)
      else if Ascii.eqb c backslash then
        match rest with
        | [] => None
        | e :: rest' =>
            if Ascii.eqb e "u"%char then
              match rest' with
              | h1 :: h2 :: h3 :: h4 :: rest'' =>
                  match hex4_value h1 h2 h3 h4 with
                  | Some u => lex_string rest'' (Unit u :: acc)
                  | None => None
                  end
              | _ => None
              end
            else
              match simple_escape e with
              | Some ch => lex_string rest' (Byte ch :: acc)
              | None => None
              end
        end
      else if (code c <? 32)%N then None
      else lex_string rest (Byte c :: acc)
  end.

(** Surrogate pairs are joined; every unit becomes its UTF-8 bytes. *)
Fixpoint units_to_bytes (us : list unit16) : list ascii :=
  match us with
  | [] => []
  | Byte c :: rest => c :: units_to_bytes rest
  | Unit hi :: rest =>
      match rest with
      | Unit lo :: rest' =>
          if is_high_surrogate hi && is_low_surrogate lo then
            utf8_encode (65536 + (hi - 55296) * 1024 + (lo - 56320))%N
              ++ units_to_bytes rest'
          else utf8_encode hi ++ units_to_bytes rest
      | _ => utf8_encode hi ++ units_to_bytes rest
      end
  end.

Fixpoint span_digits (cs : list ascii) : list ascii * list ascii :=
  match cs with
  | c :: rest =>
      if is_digit c then let '(ds, r) := span_digits rest in (c :: ds, r)
      else ([], cs)
  | [] => ([], [])
  end.

Definition digits_value (ds : list ascii) : Z :=
  fold_left (fun acc d => acc * 10 + digit_value d) ds 0.

(** The integer part: [0] or a non-zero digit followed by digits. *)
Definition lex_int_part (cs : list ascii) : option (list ascii * list ascii) :=
  match cs with
  | c :: rest =>
      if Ascii.eqb c "0"%char then Some ([c], rest)
      else if is_digit c then let '(ds, r) := span_digits rest in Some (c :: ds, r)
      else None
  | [] => None
  end.

Definition lex_fraction (cs : list ascii) : list ascii * list ascii :=
  match cs with
  | c :: rest =>
      if Ascii.eqb c "."%char then
        match span_digits rest with
        | ([], _) => ([], cs)
        | (ds, r) => (c :: ds, r)
        end
      else ([], cs)
  | [] => ([], [])
  end.

Definition lex_exponent (cs : list ascii) : list ascii * list ascii :=
  match cs with
  | e :: rest =>
      if Ascii.eqb e "e"%char || Ascii.eqb e "E"%char then
        match rest with
        | s :: rest' =>
            if Ascii.eqb s "+"%char || Ascii.eqb s "-"%char then
              match span_digits rest' with
              | ([], _) => ([], cs)
              | (ds, r) => (e :: s :: ds, r)
              end
            else
              match span_digits rest with
              | ([], _) => ([], cs)
              | (ds, r) => (e :: ds, r)
              end
        | [] => ([], cs)
        end
      else ([], cs)
  | [] => ([], [])
  end.

Definition lex_number (cs : list ascii) : option (json * list ascii) :=
  let '(neg, body) :=
    match cs with
    | c :: rest => if Ascii.eqb c "-"%char then (true, rest) else (false, cs)
    | [] => (false, cs)
    end in
  '(ds, r1) ← lex_int_part body;
  let '(fs, r2) := lex_fraction r1 in
  let '(es, r3) := lex_exponent r2 in
  match fs, es with
  | [], [] =>
      let n := digits_value ds in Some (JInt (if neg then - n else n), r3)
  | _, _ =>
      Some (JFloat (string_of_list_ascii
                      ((if neg then ["-"%char] else []) ++ ds ++ fs ++ es)), r3)
  end.

Definition strip_prefix (p : string) (cs : list ascii) : option (list ascii) :=
  let ps := list_ascii_of_string p in
  if String.prefix p (string_of_list_ascii cs)
  then Some (drop (length ps) cs) else None.

Definition lex_word (cs : list ascii) : option (json * list ascii) :=
  match strip_prefix "null" cs with
  | Some r => Some (JNull, r)
  | None =>
  match strip_prefix "true" cs with
  | Some r => Some (JBool true, r)
  | None =>
  match strip_prefix "false" cs with
  | Some r => Some (JBool false, r)
  | None =>
  match strip_prefix "NaN" cs with
  | Some r => Some (JFloat "NaN", r)
  | None =>
  match strip_prefix "Infinity" cs with
  | Some r => Some (JFloat "Infinity", r)
  | None =>
  match strip_prefix "-Infinity" cs with
  | Some r => Some (JFloat "-Infinity", r)
  | None => None
  end end end end end end.

Fixpoint lex (fuel : nat) (cs : list ascii) : option (list token) :=
  match fuel with
  | O => None
  | S fuel' =>
      match cs with
      | [] => Some []
      | c :: rest =>
          if is_ws c then lex fuel' rest
          else if Ascii.eqb c "{"%char then (TLBrace ::.) <$> lex fuel' rest
          else if Ascii.eqb c "}"%char then (TRBrace ::.) <$> lex fuel' rest
          else if Ascii.eqb c "["%char then (TLBracket ::.) <$> lex fuel' rest
          else if Ascii.eqb c "]"%char then (TRBracket ::.) <$> lex fuel' rest
          else if Ascii.eqb c ":"%char then (TColon ::.) <$> lex fuel' rest
          else if Ascii.eqb c ","%char then (TComma ::.) <$> lex fuel' rest
          else if Ascii.eqb c dquote then
            '(us, r) ← lex_string rest [];
            (TAtom (JStr (string_of_list_ascii (units_to_bytes us))) ::.) <$> lex fuel' r
          else
            match lex_word cs with
            | Some (j, r) => (TAtom j ::.) <$> lex fuel' r
            | None =>
                '(j, r) ← lex_number cs;
                (TAtom j ::.) <$> lex fuel' r
            end
      end
  end.

Fixpoint parse_value (fuel : nat) (ts : list token) : option (json * list token) :=
  match fuel with
  | O => None
  | S fuel' =>
      match ts with
      | TAtom j :: rest => Some (j, rest)
      | TLBracket :: TRBracket :: rest => Some (JArr [], rest)
      | TLBracket :: rest =>
          '(xs, r) ← parse_elements fuel' rest; Some (JArr xs, r)
      | TLBrace :: TRBrace :: rest => Some (JObj [], rest)
      | TLBrace :: rest =>
          '(ms, r) ← parse_members fuel' rest; Some (JObj ms, r)
      | _ => None
      end
  end
with parse_elements (fuel : nat) (ts : list token) : option (list json * list token) :=
  match fuel with
  | O => None
  | S fuel' =>
      '(v, r) ← parse_value fuel' ts;
      match r with
      | TComma :: r' => '(vs, r'') ← parse_elements fuel' r'; Some (v :: vs, r'')
      | TRBracket :: r' => Some ([v], r')
      | _ => None
      end
  end
with parse_members (fuel : nat) (ts : list token)
  : option (list (string * json) * list token) :=
  match fuel with
  | O => None
  | S fuel' =>
      match ts with
      | TAtom (JStr k) :: TColon :: r0 =>
          '(v, r) ← parse_value fuel' r0;
          match r with
          | TComma :: r' =>
              '(ms, r'') ← parse_members fuel' r'; Some ((k, v) :: ms, r'')
          | TRBrace :: r' => Some ([(k, v)], r')
          | _ => None
          end
      | _ => None
      end
  end.

(** [json.loads]: [None] stands for the decode error it raises. *)
Definition json_loads (s : string) : option json :=
  let cs := list_ascii_of_string s in
  ts ← lex (S (length cs)) cs;
  '(v, r) ← parse_value (S (2 * length ts)) ts;
  match r with [] => Some v | _ => None end.

(** A [\uXXXX] escape, or a surrogate pair for code points above 16 bits. *)
Definition escape_code_point (cp : N) : list ascii :=
  if (cp <? 65536)%N then backslash :: "u"%char :: hex4 cp
  else
    let v := (cp - 65536)%N in
    (backslash :: "u"%char :: hex4 (55296 + N.shiftr v 10))
      ++ (backslash :: "u"%char :: hex4 (56320 + N.land v 1023)).

(** The body of a string literal as [json.dumps] writes it with
    [ensure_ascii]: quotes, backslashes and the characters outside the
    printable ASCII range are escaped, a UTF-8 sequence as [\uXXXX].  A byte that does
    not start a well-formed sequence (unreachable from a Python [str]) is
    escaped by its own value. *)
Fixpoint escape_bytes (cs : list ascii) : list ascii :=
  match cs with
  | [] => []
  | c :: rest =>
      let n := code c in
      if (n =? 34)%N then backslash :: dquote :: escape_bytes rest
      else if (n =? 92)%N then backslash :: backslash :: escape_bytes rest
      else if (n =? 10)%N then backslash :: "n"%char :: escape_bytes rest
      else if (n =? 13)%N then backslash :: "r"%char :: escape_bytes rest
      else if (n =? 9)%N then backslash :: "t"%char :: escape_bytes rest
      else if (n =? 8)%N then backslash :: "b"%char :: escape_bytes rest
      else if (n =? 12)%N then backslash :: "f"%char :: escape_bytes rest
      else if (n <? 32)%N || (n =? 127)%N then escape_code_point n ++ escape_bytes rest
      else if (n <? 128)%N then c :: escape_bytes rest
      else
        match rest with
        | c1 :: rest1 =>
            match continuation c1 with
            | Some p1 =>
                if (N.land n 224 =? 192)%N then
                  escape_code_point (N.land n 31 * 64 + p1) ++ escape_bytes rest1
                else
                  match rest1 with
                  | c2 :: rest2 =>
                      match continuation c2 with
                      | Some p2 =>
                          if (N.land n 240 =? 224)%N then
                            escape_code_point ((N.land n 15 * 64 + p1) * 64 + p2)
                              ++ escape_bytes rest2
                          else
                            match rest2 with
                            | c3 :: rest3 =>
                                match continuation c3 with
                                | Some p3 =>
                                    if (N.land n 248 =? 240)%N then
                                      escape_code_point
                                        (((N.land n 7 * 64 + p1) * 64 + p2) * 64 + p3)
                                        ++ escape_bytes rest3
                                    else escape_code_point n ++ escape_bytes rest
                                | None => escape_code_point n ++ escape_bytes rest
                                end
                            | [] => escape_code_point n ++ escape_bytes rest
                            end
                      | None => escape_code_point n ++ escape_bytes rest
                      end
                  | [] => escape_code_point n ++ escape_bytes rest
                  end
            | None => escape_code_point n ++ escape_bytes rest
            end
        | [] => escape_code_point n ++ escape_bytes rest
        end
  end.

Definition write_string (s : string) : string :=
  string_of_list_ascii
    (dquote :: escape_bytes (list_ascii_of_string s) ++ [dquote]).

(** [json.dumps] with its default separators. *)
Fixpoint json_dumps (j : json) : string :=
  match j with
  | JNull => "null"
  | JBool true => "true"
  | JBool false => "false"
  | JInt n => string_of_Z n
  | JFloat lexeme => lexeme
  | JStr s => write_string s
  | JArr items => "[" +:+ String.concat ", " (List.map json_dumps items) +:+ "]"
  | JObj members =>
      "{" +:+ String.concat ", "
                (List.map (fun m => write_string (fst m) +:+ ": " +:+ json_dumps (snd m))
                   members)
          +:+ "}"
  end.

End Json.

(* ===================================================================== *)
(** ** Errors and configuration *)
(* ===================================================================== *)

(** Modelled from the spec: [passwordless/errors.py] is not among the
    sources.  The problem-details payload has the four fields of the data
    model (type: URI string, status: integer, title: string, detail:
    string), which are the keyword arguments [handle_response_error]
    passes to it. *)
Record PasswordlessProblemDetails : Type := {
  pd_type : string;
  pd_status : Z;
  pd_title : string;
  pd_detail : string
}.

(** What a call can raise: the one normalized service error wrapping a
    problem-details record ([PasswordlessError], from [errors.py]); the
    error of a decoder given a body it cannot decode; an error of the
    transport (connection failure, timeout), named by the transport. *)
Inductive exception : Type :=
| PasswordlessError (problem_details : PasswordlessProblemDetails)
| DeserializationError
| TransportError (what : string).

(** Modelled from the spec: [passwordless/config.py] is not among the
    sources.  The configuration holds the base URL and the secret, read by
    the client as [options.api_url] and [options.api_secret]. *)
Record PasswordlessOptions : Type := {
  api_url : string;
  api_secret : string
}.

Inductive result (A : Type) : Type :=
| Return (a : A)
| Raise (e : exception).
Arguments Return {A} a.
Arguments Raise {A} e.

(* ===================================================================== *)
(** ** The HTTP library: requests, responses, sessions *)
(* ===================================================================== *)

(** [requests.structures.CaseInsensitiveDict]: the store is keyed by the
    lower-cased name and keeps the name as it was set next to the value. *)
Module CaseInsensitiveDict.

Definition t : Type := gmap string (string * string).

Definition setitem (k v : string) (d : t) : t := <[Text.lower k := (k, v)]> d.

(** [d.get(k)]: the value under the name, compared without case. *)
Definition get (k : string) (d : t) : option string := snd <$> d !! Text.lower k.

Definition contains (k : string) (d : t) : bool := bool_decide (is_Some (get k d)).

Definition of_list (l : list (string * string)) : t :=
  fold_left (fun d kv => setitem (fst kv) (snd kv) d) l ∅.

End CaseInsensitiveDict.

Module Request.

Record t : Type := {
  method : string;
  url : string;
  headers : gmap string string;
  params : gmap string string;
  data : option string
}.

(** [Request(method, url, headers, params, data)]: an omitted [params]
    becomes the empty dict, an omitted [data] stays without a body. *)
Definition init (method url : string) (headers : gmap string string)
    (params : option (gmap string string)) (data : option string) : t :=
  {| method := method; url := url; headers := headers;
     params := default ∅ params; data := data |}.

End Request.

Module PreparedRequest.

Record t : Type := {
  method : string;
  url : string;
  headers : CaseInsensitiveDict.t;
  body : option string
}.

End PreparedRequest.

Module Response.

Record t : Type := {
  status_code : Z;
  headers : CaseInsensitiveDict.t;
  text : string
}.

End Response.

(** A transport session.  Its identity is [session_id]; [prepare_request]
    and [send] are the session's own behaviour (the real network for a
    default session, a test double for an injected one).  [send] sees the
    requests this program has handed to a session so far (the current one
    last), its prepared request, [allow_redirects] and [timeout], and gives
    a response or raises a transport error. *)
Module Session.

Record t : Type := {
  session_id : nat;
  prepare_request : Request.t → PreparedRequest.t;
  send : list Request.t → PreparedRequest.t → bool → Z → result Response.t
}.

End Session.

(* ===================================================================== *)
(** ** The world a call runs in, and computations over it *)
(* ===================================================================== *)

(** The clock read by [datetime.utcnow()], the sessions constructed so far
    and the requests handed to a session so far, oldest first. *)
Record World : Type := {
  clock : Z;
  sessions : gset nat;
  sent : list Request.t
}.

(** A computation: it reads and updates the world, and returns or raises. *)
Definition M (A : Type) : Type := World → result A * World.

#[global] Instance M_ret : MRet M := λ A (a : A) w, (Return a, w).

#[global] Instance M_bind : MBind M := λ A B (k : A → M B) (m : M A) w,
  match m w with
  | (Return a, w') => k a w'
  | (Raise e, w') => (Raise e, w')
  end.

Definition raise {A : Type} (e : exception) : M A := λ w, (Raise e, w).

(** [datetime.utcnow()] *)
Definition utcnow : M Z := λ w, (Return (clock w), w).

(** Time passing between two statements of a program. *)
Definition elapse (microseconds : Z) : M unit :=
  λ w, (Return tt, {| clock := clock w + microseconds;
                      sessions := sessions w; sent := sent w |}).

(** [timedelta(minutes=n)] in microseconds. *)
Definition timedelta_minutes (n : Z) : Z := n * 60 * 1000000.

(** [session.prepare_request(request)]: the request is recorded as handed
    to the session. *)
Definition Session_prepare_request (s : Session.t) (request : Request.t)
  : M PreparedRequest.t :=
  λ w, (Return (Session.prepare_request s request),
        {| clock := clock w; sessions := sessions w; sent := sent w ++ [request] |}).

(** [session.send(prepped, allow_redirects=.., timeout=..)] *)
Definition Session_send (s : Session.t) (prepped : PreparedRequest.t)
    (allow_redirects : bool) (timeout : Z) : M Response.t :=
  λ w, (Session.send s (sent w) prepped allow_redirects timeout, w).

Section DefaultSession.

  (** The behaviour of a session of the HTTP library over the real network. *)
Variable network_prepare : Request.t → PreparedRequest.t.
Variable network_send :
  list Request.t → PreparedRequest.t → bool → Z → result Response.t.

(** [Session()]: a new session, distinct from every session so far. *)
Definition Session_new : M Session.t :=
  λ w, let i := fresh (sessions w) in
       (Return {| Session.session_id := i;
                  Session.prepare_request := network_prepare;
                  Session.send := network_send |},
        {| clock := clock w; sessions := {[ i ]} ∪ sessions w; sent := sent w |}).

End DefaultSession.

(* ===================================================================== *)
(** ** models.py *)
(* ===================================================================== *)

(** Each dataclass is a record in a module of its name.  A field with a
    default is an optional argument of [init]; [None] is the argument left
    out by the caller. *)

Module CreateAlias.
Record t : Type := { user_id : string; aliases : list string; hashing : bool }.
Definition init (user_id : string) (aliases : list string) (hashing : option bool) : t :=
  {| user_id := user_id; aliases := aliases; hashing := default true hashing |}.
End CreateAlias.

Module Alias.
Record t : Type := { user_id : string; alias : string; plaintext : string; tenant : string }.
End Alias.

Module ListResponse.
Record t (T : Type) : Type := { values : list T }.
Arguments values {T} _.
Arguments Build_t {T} _.
End ListResponse.

Module UpdateAppsFeature.
Record t : Type := { audit_logging_retention_period : Z }.
End UpdateAppsFeature.

Module DeleteCredential.
Record t : Type := { credential_id : string }.
End DeleteCredential.

Module CredentialDescriptor.
Record t : Type := { type : string; id : string; transports : option (list string) }.
Definition init (type id : string) (transports : option (option (list string))) : t :=
  {| type := type; id := id; transports := default None transports |}.
End CredentialDescriptor.

Module Credential.
Record t : Type := {
  descriptor : CredentialDescriptor.t;
  public_key : string;
  user_handle : string;
  signature_counter : Z;
  attestation_fmt : string;
  created_at : Z;
  aa_guid : string;
  last_user_at : Z;
  rp_id : string;
  origin : string;
  country : string;
  device : string;
  user_id : string
}.
End Credential.

Module RegisterToken.

Record t : Type := {
  user_id : string;
  username : string;
  display_name : string;
  attestation : string;
  authenticator_type : string;
  discoverable : bool;
  user_verification : string;
  aliases : list string;
  alias_hashing : bool;
  expires_at : Z
}.

(** The class object.  The default of [expires_at] is the value of the
    expression [datetime.utcnow() + timedelta(minutes=2)], evaluated when
    the class statement runs and stored in the class; the default of
    [aliases] is a factory, called by every [init]. *)
Record class : Type := { expires_at_default : Z }.

(** Executing the class statement (when [models.py] is imported). *)
Definition define : M class :=
  now ← utcnow;
  mret {| expires_at_default := now + timedelta_minutes 2 |}.

(** [RegisterToken(user_id, username, display_name, ...)] *)
Definition init (cls : class) (user_id username display_name : string)
    (attestation authenticator_type : option string) (discoverable : option bool)
    (user_verification : option string) (aliases : option (list string))
    (alias_hashing : option bool) (expires_at : option Z) : M t :=
  mret {| user_id := user_id;
          username := username;
          display_name := display_name;
          attestation := default "none" attestation;
          authenticator_type := default "any" authenticator_type;
          discoverable := default true discoverable;
          user_verification := default "preferred" user_verification;
          aliases := default [] aliases;
          alias_hashing := default true alias_hashing;
          expires_at := default (expires_at_default cls) expires_at |}.

End RegisterToken.

Module RegisteredToken.
Record t : Type := { token : string }.
End RegisteredToken.

Module VerifySignIn.
Record t : Type := { token : string }.
End VerifySignIn.

Module VerifiedUser.
Record t : Type := {
  success : bool;
  user_id : string;
  timestamp : Z;
  rp_id : string;
  origin : string;
  device : string;
  country : string;
  nickname : string;
  credential_id : string;
  expires_at : Z;
  token_id : string;
  type : string
}.
End VerifiedUser.

Module UserSummary.
Record t : Type := {
  user_id : string;
  alias_count : Z;
  aliases : list string;
  credentials_count : Z;
  last_used_at : Z
}.
End UserSummary.

Module DeleteUser.
Record t : Type := { user_id : string }.
End DeleteUser.

(* ===================================================================== *)
(** ** Timestamps on the wire *)
(* ===================================================================== *)

(** [datetime.isoformat()] of a naive timestamp and its reading back:
    [YYYY-MM-DDTHH:MM:SS] with [.ffffff] when the microseconds are not 0.
    Days are counted in the proleptic Gregorian calendar. *)
Module IsoFormat.
Import Text.

Definition days_from_civil (y m d : Z) : Z :=
  let y' := if m <=? 2 then y - 1 else y in
  let era := y' / 400 in
  let yoe := y' - era * 400 in
  let doy := (153 * (if 2 <? m then m - 3 else m + 9) + 2) / 5 + d - 1 in
  let doe := yoe * 365 + yoe / 4 - yoe / 100 + doy in
  era * 146097 + doe - 719468.

Definition civil_from_days (days : Z) : Z * Z * Z :=
  let z := days + 719468 in
  let era := z / 146097 in
  let doe := z - era * 146097 in
  let yoe := (doe - doe / 1460 + doe / 36524 - doe / 146096) / 365 in
  let doy := doe - (365 * yoe + yoe / 4 - yoe / 100) in
  let mp := (5 * doy + 2) / 153 in
  let d := doy - (153 * mp + 2) / 5 + 1 in
  let m := if mp <? 10 then mp + 3 else mp - 9 in
  (yoe + era * 400 + (if m <=? 2 then 1 else 0), m, d).

Definition day_us : Z := 86400 * 1000000.

Definition pad (width : nat) (ds : list ascii) : list ascii :=
  repeat "0"%char (width - length ds) ++ ds.

Definition digits (width : nat) (n : Z) : string :=
  string_of_list_ascii (pad width (list_ascii_of_string (string_of_Z n))).

Definition isoformat (t : Z) : string :=
  let days := t / day_us in
  let us := t mod day_us in
  let '(y, m, d) := civil_from_days days in
  let secs := us / 1000000 in
  let frac := us mod 1000000 in
  digits 4 y +:+ "-" +:+ digits 2 m +:+ "-" +:+ digits 2 d +:+ "T"
    +:+ digits 2 (secs / 3600) +:+ ":" +:+ digits 2 (secs / 60 mod 60)
    +:+ ":" +:+ digits 2 (secs mod 60)
    +:+ (if frac =? 0 then "" else "." +:+ digits 6 frac).

(** [number n cs]: exactly [n] digits, and what follows them. *)
Fixpoint number (n : nat) (acc : Z) (cs : list ascii) : option (Z * list ascii) :=
  match n with
  | O => Some (acc, cs)
  | S n' =>
      match cs with
      | c :: rest =>
          if is_digit c then number n' (acc * 10 + digit_value c) rest else None
      | [] => None
      end
  end.

Definition expect (c : ascii) (cs : list ascii) : option (list ascii) :=
  match cs with
  | c' :: rest => if Ascii.eqb c c' then Some rest else None
  | [] => None
  end.

Definition fromisoformat (s : string) : option Z :=
  '(y, r) ← number 4 0 (list_ascii_of_string s);
  r ← expect "-"%char r;
  '(m, r) ← number 2 0 r;
  r ← expect "-"%char r;
  '(d, r) ← number 2 0 r;
  r ← expect "T"%char r;
  '(hh, r) ← number 2 0 r;
  r ← expect ":"%char r;
  '(mm, r) ← number 2 0 r;
  r ← expect ":"%char r;
  '(ss, r) ← number 2 0 r;
  '(us, r) ← match r with
             | [] => Some (0, [])
             | _ => r' ← expect "."%char r; number 6 0 r'
             end;
  let days := days_from_civil y m d in
  if bool_decide (r = [] ∧ 1 ≤ y ∧ civil_from_days days = (y, m, d)
                  ∧ hh < 24 ∧ mm < 60 ∧ ss < 60)
  then Some (days * day_us + ((hh * 60 + mm) * 60 + ss) * 1000000 + us)
  else None.

End IsoFormat.

(* ===================================================================== *)
(** ** Schemas *)
(* ===================================================================== *)

(** What the client uses of a schema object: [dumps] encodes a record to
    wire text, [loads] decodes wire text, [None] standing for the
    deserialization error it raises. *)
Record Schema (A : Type) : Type := {
  dumps : A → string;
  loads : string → option A
}.
Arguments dumps {A} _ _.
Arguments loads {A} _ _.

(** Modelled from the spec: [passwordless/serialization.py] is not among
    the sources.  Following the serialization layer of the spec, a schema
    maps a record to and from its JSON wire representation; decoding is
    strict (a required member that is absent or of the wrong type is a
    deserialization error, never a default); a list envelope holds its
    elements under [values]; timestamps are ISO-8601 text; member names are
    translated between internal and wire casing by [wire].  The member
    names of a problem-details document and of the list envelope are the
    ones of the spec's scenarios.  Members the record does not have are
    ignored, on which the spec is silent. *)
Module Serialization.
Import Json.

Record Fields (A : Type) : Type := {
  dump : A → json;
  load : json → option A
}.
Arguments dump {A} _ _.
Arguments load {A} _ _.

Definition schema {A : Type} (f : Fields A) : Schema A :=
  {| dumps := λ a, json_dumps (dump f a);
     loads := λ s, json_loads s ≫= load f |}.

Definition as_obj (j : json) : option (list (string * json)) :=
  match j with JObj ms => Some ms | _ => None end.
Definition as_str (j : json) : option string :=
  match j with JStr s => Some s | _ => None end.
Definition as_int (j : json) : option Z :=
  match j with JInt n => Some n | _ => None end.
Definition as_bool (j : json) : option bool :=
  match j with JBool b => Some b | _ => None end.
Definition as_list (j : json) : option (list json) :=
  match j with JArr xs => Some xs | _ => None end.
Definition as_datetime (j : json) : option Z :=
  as_str j ≫= IsoFormat.fromisoformat.
Definition as_str_list (j : json) : option (list string) :=
  as_list j ≫= mapM as_str.

Definition JStrs (l : list string) : json := JArr (JStr <$> l).
Definition JDateTime (t : Z) : json := JStr (IsoFormat.isoformat t).

(** snake_case to camelCase, the casing of the [userId] query parameter. *)
Fixpoint camelcase_chars (up : bool) (cs : list ascii) : list ascii :=
  match cs with
  | [] => []
  | c :: rest =>
      if Ascii.eqb c "_"%char then camelcase_chars true rest
      else (if up then Text.upper_char c else c) :: camelcase_chars false rest
  end.

Definition camelcase (s : string) : string :=
  string_of_list_ascii (camelcase_chars false (list_ascii_of_string s)).

Definition problem_details_fields : Fields PasswordlessProblemDetails :=
  {| dump := λ p, JObj [("type", JStr (pd_type p)); ("status", JInt (pd_status p));
                        ("title", JStr (pd_title p)); ("detail", JStr (pd_detail p))];
     load := λ j,
       ms ← as_obj j;
       type ← member "type" ms ≫= as_str;
       status ← member "status" ms ≫= as_int;
       title ← member "title" ms ≫= as_str;
       detail ← member "detail" ms ≫= as_str;
       Some {| pd_type := type; pd_status := status;
               pd_title := title; pd_detail := detail |} |}.

Definition PasswordlessProblemDetailsSchema : Schema PasswordlessProblemDetails :=
  schema problem_details_fields.

(** The list envelope over the fields of its elements. *)
Definition list_response_fields {T : Type} (item : Fields T)
  : Fields (ListResponse.t T) :=
  {| dump := λ r, JObj [("values", JArr (dump item <$> ListResponse.values r))];
     load := λ j,
       ms ← as_obj j;
       items ← member "values" ms ≫= as_list;
       values ← mapM (load item) items;
       Some (ListResponse.Build_t values) |}.

Section Wire.

Variable wire : string → string.

Definition create_alias_fields : Fields CreateAlias.t :=
  {| dump := λ a, JObj [(wire "user_id", JStr (CreateAlias.user_id a));
                        (wire "aliases", JStrs (CreateAlias.aliases a));
                        (wire "hashing", JBool (CreateAlias.hashing a))];
     load := λ j,
       ms ← as_obj j;
       user_id ← member (wire "user_id") ms ≫= as_str;
       aliases ← member (wire "aliases") ms ≫= as_str_list;
       hashing ← member (wire "hashing") ms ≫= as_bool;
       Some {| CreateAlias.user_id := user_id; CreateAlias.aliases := aliases;
               CreateAlias.hashing := hashing |} |}.

Definition alias_fields : Fields Alias.t :=
  {| dump := λ a, JObj [(wire "user_id", JStr (Alias.user_id a));
                        (wire "alias", JStr (Alias.alias a));
                        (wire "plaintext", JStr (Alias.plaintext a));
                        (wire "tenant", JStr (Alias.tenant a))];
     load := λ j,
       ms ← as_obj j;
       user_id ← member (wire "user_id") ms ≫= as_str;
       alias ← member (wire "alias") ms ≫= as_str;
       plaintext ← member (wire "plaintext") ms ≫= as_str;
       tenant ← member (wire "tenant") ms ≫= as_str;
       Some {| Alias.user_id := user_id; Alias.alias := alias;
               Alias.plaintext := plaintext; Alias.tenant := tenant |} |}.

Definition update_apps_feature_fields : Fields UpdateAppsFeature.t :=
  {| dump := λ u, JObj [(wire "audit_logging_retention_period",
                         JInt (UpdateAppsFeature.audit_logging_retention_period u))];
     load := λ j,
       ms ← as_obj j;
       n ← member (wire "audit_logging_retention_period") ms ≫= as_int;
       Some {| UpdateAppsFeature.audit_logging_retention_period := n |} |}.

Definition delete_credential_fields : Fields DeleteCredential.t :=
  {| dump := λ d, JObj [(wire "credential_id", JStr (DeleteCredential.credential_id d))];
     load := λ j,
       ms ← as_obj j;
       credential_id ← member (wire "credential_id") ms ≫= as_str;
       Some {| DeleteCredential.credential_id := credential_id |} |}.

Definition delete_user_fields : Fields DeleteUser.t :=
  {| dump := λ d, JObj [(wire "user_id", JStr (DeleteUser.user_id d))];
     load := λ j,
       ms ← as_obj j;
       user_id ← member (wire "user_id") ms ≫= as_str;
       Some {| DeleteUser.user_id := user_id |} |}.

Definition credential_descriptor_fields : Fields CredentialDescriptor.t :=
  {| dump := λ d,
       JObj [(wire "type", JStr (CredentialDescriptor.type d));
             (wire "id", JStr (CredentialDescriptor.id d));
             (wire "transports",
               match CredentialDescriptor.transports d with
               | Some ts => JStrs ts
               | None => JNull
               end)];
     load := λ j,
       ms ← as_obj j;
       type ← member (wire "type") ms ≫= as_str;
       id ← member (wire "id") ms ≫= as_str;
       transports ← match member (wire "transports") ms with
                    | None | Some JNull => Some None
                    | Some ts => Some <$> as_str_list ts
                    end;
       Some {| CredentialDescriptor.type := type; CredentialDescriptor.id := id;
               CredentialDescriptor.transports := transports |} |}.

Definition credential_fields : Fields Credential.t :=
  {| dump := λ c,
       JObj [(wire "descriptor",
               dump credential_descriptor_fields (Credential.descriptor c));
             (wire "public_key", JStr (Credential.public_key c));
             (wire "user_handle", JStr (Credential.user_handle c));
             (wire "signature_counter", JInt (Credential.signature_counter c));
             (wire "attestation_fmt", JStr (Credential.attestation_fmt c));
             (wire "created_at", JDateTime (Credential.created_at c));
             (wire "aa_guid", JStr (Credential.aa_guid c));
             (wire "last_user_at", JDateTime (Credential.last_user_at c));
             (wire "rp_id", JStr (Credential.rp_id c));
             (wire "origin", JStr (Credential.origin c));
             (wire "country", JStr (Credential.country c));
             (wire "device", JStr (Credential.device c));
             (wire "user_id", JStr (Credential.user_id c))];
     load := λ j,
       ms ← as_obj j;
       descriptor ← member (wire "descriptor") ms ≫= load credential_descriptor_fields;
       public_key ← member (wire "public_key") ms ≫= as_str;
       user_handle ← member (wire "user_handle") ms ≫= as_str;
       signature_counter ← member (wire "signature_counter") ms ≫= as_int;
       attestation_fmt ← member (wire "attestation_fmt") ms ≫= as_str;
       created_at ← member (wire "created_at") ms ≫= as_datetime;
       aa_guid ← member (wire "aa_guid") ms ≫= as_str;
       last_user_at ← member (wire "last_user_at") ms ≫= as_datetime;
       rp_id ← member (wire "rp_id") ms ≫= as_str;
       origin ← member (wire "origin") ms ≫= as_str;
       country ← member (wire "country") ms ≫= as_str;
       device ← member (wire "device") ms ≫= as_str;
       user_id ← member (wire "user_id") ms ≫= as_str;
       Some {| Credential.descriptor := descriptor;
               Credential.public_key := public_key;
               Credential.user_handle := user_handle;
               Credential.signature_counter := signature_counter;
               Credential.attestation_fmt := attestation_fmt;
               Credential.created_at := created_at;
               Credential.aa_guid := aa_guid;
               Credential.last_user_at := last_user_at;
               Credential.rp_id := rp_id;
               Credential.origin := origin;
               Credential.country := country;
               Credential.device := device;
               Credential.user_id := user_id |} |}.

Definition user_summary_fields : Fields UserSummary.t :=
  {| dump := λ u,
       JObj [(wire "user_id", JStr (UserSummary.user_id u));
             (wire "alias_count", JInt (UserSummary.alias_count u));
             (wire "aliases", JStrs (UserSummary.aliases u));
             (wire "credentials_count", JInt (UserSummary.credentials_count u));
             (wire "last_used_at", JDateTime (UserSummary.last_used_at u))];
     load := λ j,
       ms ← as_obj j;
       user_id ← member (wire "user_id") ms ≫= as_str;
       alias_count ← member (wire "alias_count") ms ≫= as_int;
       aliases ← member (wire "aliases") ms ≫= as_str_list;
       credentials_count ← member (wire "credentials_count") ms ≫= as_int;
       last_used_at ← member (wire "last_used_at") ms ≫= as_datetime;
       Some {| UserSummary.user_id := user_id;
               UserSummary.alias_count := alias_count;
               UserSummary.aliases := aliases;
               UserSummary.credentials_count := credentials_count;
               UserSummary.last_used_at := last_used_at |} |}.

Definition register_token_fields : Fields RegisterToken.t :=
  {| dump := λ r,
       JObj [(wire "user_id", JStr (RegisterToken.user_id r));
             (wire "username", JStr (RegisterToken.username r));
             (wire "display_name", JStr (RegisterToken.display_name r));
             (wire "attestation", JStr (RegisterToken.attestation r));
             (wire "authenticator_type", JStr (RegisterToken.authenticator_type r));
             (wire "discoverable", JBool (RegisterToken.discoverable r));
             (wire "user_verification", JStr (RegisterToken.user_verification r));
             (wire "aliases", JStrs (RegisterToken.aliases r));
             (wire "alias_hashing", JBool (RegisterToken.alias_hashing r));
             (wire "expires_at", JDateTime (RegisterToken.expires_at r))];
     load := λ j,
       ms ← as_obj j;
       user_id ← member (wire "user_id") ms ≫= as_str;
       username ← member (wire "username") ms ≫= as_str;
       display_name ← member (wire "display_name") ms ≫= as_str;
       attestation ← member (wire "attestation") ms ≫= as_str;
       authenticator_type ← member (wire "authenticator_type") ms ≫= as_str;
       discoverable ← member (wire "discoverable") ms ≫= as_bool;
       user_verification ← member (wire "user_verification") ms ≫= as_str;
       aliases ← member (wire "aliases") ms ≫= as_str_list;
       alias_hashing ← member (wire "alias_hashing") ms ≫= as_bool;
       expires_at ← member (wire "expires_at") ms ≫= as_datetime;
       Some {| RegisterToken.user_id := user_id;
               RegisterToken.username := username;
               RegisterToken.display_name := display_name;
               RegisterToken.attestation := attestation;
               RegisterToken.authenticator_type := authenticator_type;
               RegisterToken.discoverable := discoverable;
               RegisterToken.user_verification := user_verification;
               RegisterToken.aliases := aliases;
               RegisterToken.alias_hashing := alias_hashing;
               RegisterToken.expires_at := expires_at |} |}.

Definition registered_token_fields : Fields RegisteredToken.t :=
  {| dump := λ r, JObj [(wire "token", JStr (RegisteredToken.token r))];
     load := λ j,
       ms ← as_obj j;
       token ← member (wire "token") ms ≫= as_str;
       Some {| RegisteredToken.token := token |} |}.

Definition verify_sign_in_fields : Fields VerifySignIn.t :=
  {| dump := λ v, JObj [(wire "token", JStr (VerifySignIn.token v))];
     load := λ j,
       ms ← as_obj j;
       token ← member (wire "token") ms ≫= as_str;
       Some {| VerifySignIn.token := token |} |}.

Definition verified_user_fields : Fields VerifiedUser.t :=
  {| dump := λ v,
       JObj [(wire "success", JBool (VerifiedUser.success v));
             (wire "user_id", JStr (VerifiedUser.user_id v));
             (wire "timestamp", JDateTime (VerifiedUser.timestamp v));
             (wire "rp_id", JStr (VerifiedUser.rp_id v));
             (wire "origin", JStr (VerifiedUser.origin v));
             (wire "device", JStr (VerifiedUser.device v));
             (wire "country", JStr (VerifiedUser.country v));
             (wire "nickname", JStr (VerifiedUser.nickname v));
             (wire "credential_id", JStr (VerifiedUser.credential_id v));
             (wire "expires_at", JDateTime (VerifiedUser.expires_at v));
             (wire "token_id", JStr (VerifiedUser.token_id v));
             (wire "type", JStr (VerifiedUser.type v))];
     load := λ j,
       ms ← as_obj j;
       success ← member (wire "success") ms ≫= as_bool;
       user_id ← member (wire "user_id") ms ≫= as_str;
       timestamp ← member (wire "timestamp") ms ≫= as_datetime;
       rp_id ← member (wire "rp_id") ms ≫= as_str;
       origin ← member (wire "origin") ms ≫= as_str;
       device ← member (wire "device") ms ≫= as_str;
       country ← member (wire "country") ms ≫= as_str;
       nickname ← member (wire "nickname") ms ≫= as_str;
       credential_id ← member (wire "credential_id") ms ≫= as_str;
       expires_at ← member (wire "expires_at") ms ≫= as_datetime;
       token_id ← member (wire "token_id") ms ≫= as_str;
       type ← member (wire "type") ms ≫= as_str;
       Some {| VerifiedUser.success := success;
               VerifiedUser.user_id := user_id;
               VerifiedUser.timestamp := timestamp;
               VerifiedUser.rp_id := rp_id;
               VerifiedUser.origin := origin;
               VerifiedUser.device := device;
               VerifiedUser.country := country;
               VerifiedUser.nickname := nickname;
               VerifiedUser.credential_id := credential_id;
               VerifiedUser.expires_at := expires_at;
               VerifiedUser.token_id := token_id;
               VerifiedUser.type := type |} |}.

Definition CreateAliasSchema := schema create_alias_fields.
Definition UpdateAppsFeatureSchema := schema update_apps_feature_fields.
Definition DeleteCredentialSchema := schema delete_credential_fields.
Definition DeleteUserSchema := schema delete_user_fields.
Definition AliasListResponseSchema := schema (list_response_fields alias_fields).
Definition CredentialListResponseSchema :=
  schema (list_response_fields credential_fields).
Definition UserSummaryListResponseSchema :=
  schema (list_response_fields user_summary_fields).
Definition RegisterTokenSchema := schema register_token_fields.
Definition RegisteredTokenSchema := schema registered_token_fields.
Definition VerifySignInSchema := schema verify_sign_in_fields.
Definition VerifiedUserSchema := schema verified_user_fields.

End Wire.

End Serialization.

(* ===================================================================== *)
(** ** client.py *)
(* ===================================================================== *)

(** The [logging.debug] calls of [client.py] write to the log only; they
    take no part in what a call sends, returns or raises and are left out. *)

(** A decoder's result inside a computation. *)
Definition decoded {A : Type} (o : option A) : M A :=
  match o with
  | Some a => mret a
  | None => raise DeserializationError
  end.

Section ErrorNormalizer.

Variable PasswordlessProblemDetailsSchema : Schema PasswordlessProblemDetails.

(** The test ['Content-Type' in response.headers and
    response.headers['Content-Type'].startswith('application/problem+json')]. *)
Definition declares_problem_json (response : Response.t) : bool :=
  match CaseInsensitiveDict.get "Content-Type" (Response.headers response) with
  | Some content_type => Text.startswith content_type "application/problem+json"
  | None => false
  end.

Definition handle_response_error (response : Response.t) : M unit :=
  problem_details ←
    (if declares_problem_json response then
       let problem_details_schema := PasswordlessProblemDetailsSchema in
       problem_details ←
         decoded (loads problem_details_schema (Response.text response));
       mret (Some problem_details)
     else mret None);
  let problem_details :=
    match problem_details with
    | None =>
        {| pd_type := "https://docs.passwordless.dev/guide/errors.html";
           pd_status := Response.status_code response;
           pd_title := "Unexpected error";
           pd_detail := Response.text response |}
    | Some problem_details => problem_details
    end in
  raise (PasswordlessError problem_details).

End ErrorNormalizer.

Module PasswordlessApiClientImpl.

Record t : Type := {
  options : PasswordlessOptions;
  session : Session.t
}.

Definition init (options : PasswordlessOptions) (session : Session.t) : t :=
  {| options := options; session := session |}.

Definition build_url (self : t) (path : string) : string :=
  api_url (options self) +:+ path.

Definition build_headers (self : t) (post : bool) : gmap string string :=
  let headers : gmap string string := {[ "ApiSecret" := api_secret (options self) ]} in
  if post then <["Content-Type" := "application/json; charset=UTF-8"]> headers
  else headers.

Definition get_request (self : t) (path : string)
    (query_params : option (gmap string string)) : Request.t :=
  let query_params :=
    match query_params with
    | None => ∅
    | Some query_params => query_params
    end in
  let url := build_url self path in
  let headers := build_headers self false in
  Request.init "GET" url headers (Some query_params) None.

Definition post_request (self : t) (path : string) (data : string) : Request.t :=
  let url := build_url self path in
  let headers := build_headers self true in
  Request.init "POST" url headers None (Some data).

Section Operations.

Variable PasswordlessProblemDetailsSchema : Schema PasswordlessProblemDetails.
Variable CreateAliasSchema : Schema CreateAlias.t.
Variable AliasListResponseSchema : Schema (ListResponse.t Alias.t).
Variable UpdateAppsFeatureSchema : Schema UpdateAppsFeature.t.
Variable DeleteCredentialSchema : Schema DeleteCredential.t.
Variable CredentialListResponseSchema : Schema (ListResponse.t Credential.t).
Variable RegisterTokenSchema : Schema RegisterToken.t.
Variable RegisteredTokenSchema : Schema RegisteredToken.t.
Variable VerifySignInSchema : Schema VerifySignIn.t.
Variable VerifiedUserSchema : Schema VerifiedUser.t.
Variable UserSummaryListResponseSchema : Schema (ListResponse.t UserSummary.t).
Variable DeleteUserSchema : Schema DeleteUser.t.

Definition send_request (self : t) (request : Request.t) : M string :=
  prepped_request ← Session_prepare_request (session self) request;
  response ← Session_send (session self) prepped_request true 30;
  (if 400 <=? Response.status_code response
   then handle_response_error PasswordlessProblemDetailsSchema response
   else mret tt);;
  mret (Response.text response).

Definition create_alias (self : t) (create_alias : CreateAlias.t) : M unit :=
  let schema := CreateAliasSchema in
  let request_data := dumps schema create_alias in
  let request := post_request self "/alias" request_data in
  send_request self request;;
  mret tt.

Definition get_aliases (self : t) (user_id : string) : M (list Alias.t) :=
  let request := get_request self "/alias/list" (Some {[ "userId" := user_id ]}) in
  response_data ← send_request self request;
  let schema := AliasListResponseSchema in
  list_response ← decoded (loads schema response_data);
  mret (ListResponse.values list_response).

Definition update_apps_feature (self : t) (update_apps_feature : UpdateAppsFeature.t)
  : M unit :=
  let schema := UpdateAppsFeatureSchema in
  let request_data := dumps schema update_apps_feature in
  let request := post_request self "/apps/features" request_data in
  send_request self request;;
  mret tt.

Definition delete_credential (self : t) (delete_credential : DeleteCredential.t)
  : M unit :=
  let schema := DeleteCredentialSchema in
  let request_data := dumps schema delete_credential in
  let request := post_request self "/credentials/delete" request_data in
  send_request self request;;
  mret tt.

Definition get_credentials (self : t) (user_id : string) : M (list Credential.t) :=
  let request := get_request self "/credentials/list" (Some {[ "userId" := user_id ]}) in
  response_data ← send_request self request;
  let schema := CredentialListResponseSchema in
  list_response ← decoded (loads schema response_data);
  mret (ListResponse.values list_response).

Definition register_token (self : t) (register_token : RegisterToken.t)
  : M RegisteredToken.t :=
  let request_schema := RegisterTokenSchema in
  let request_data := dumps request_schema register_token in
  let request := post_request self "/register/token" request_data in
  response_data ← send_request self request;
  let response_schema := RegisteredTokenSchema in
  decoded (loads response_schema response_data).

Definition sign_in (self : t) (verify_sign_in : VerifySignIn.t) : M VerifiedUser.t :=
  let request_schema := VerifySignInSchema in
  let request_data := dumps request_schema verify_sign_in in
  let request := post_request self "/signin/verify" request_data in
  response_data ← send_request self request;
  let response_schema := VerifiedUserSchema in
  decoded (loads response_schema response_data).

Definition get_users (self : t) : M (list UserSummary.t) :=
  let request := get_request self "/users/list" None in
  response_data ← send_request self request;
  let schema := UserSummaryListResponseSchema in
  list_response ← decoded (loads schema response_data);
  mret (ListResponse.values list_response).

Definition delete_user (self : t) (delete_user : DeleteUser.t) : M unit :=
  let schema := DeleteUserSchema in
  let request_data := dumps schema delete_user in
  let request := post_request self "/users/delete" request_data in
  send_request self request;;
  mret tt.

End Operations.

End PasswordlessApiClientImpl.

Module PasswordlessApiClientBuilder.

Record t : Type := {
  options : PasswordlessOptions;
  session : Session.t
}.

Section Builder.

Variable network_prepare : Request.t → PreparedRequest.t.
Variable network_send :
  list Request.t → PreparedRequest.t → bool → Z → result Response.t.

(** [PasswordlessApiClientBuilder(options, session)]; [None] is the
    session argument left out. *)
Definition init (options : PasswordlessOptions) (session : option Session.t) : M t :=
  session ← match session with
            | None => Session_new network_prepare network_send
            | Some session => mret session
            end;
  mret {| options := options; session := session |}.

End Builder.

Definition build (self : t) : PasswordlessApiClientImpl.t :=
  PasswordlessApiClientImpl.init (options self) (session self).

End PasswordlessApiClientBuilder.


(* ===================================================================== *)
(** ** The interface as one call *)
(* ===================================================================== *)

(** The nine methods of [PasswordlessApiClient] with their arguments. *)
Inductive operation : Type :=
| CreateAliasOp (create_alias : CreateAlias.t)
| GetAliasesOp (user_id : string)
| UpdateAppsFeatureOp (update_apps_feature : UpdateAppsFeature.t)
| DeleteCredentialOp (delete_credential : DeleteCredential.t)
| GetCredentialsOp (user_id : string)
| RegisterTokenOp (register_token : RegisterToken.t)
| SignInOp (verify_sign_in : VerifySignIn.t)
| GetUsersOp
| DeleteUserOp (delete_user : DeleteUser.t).

(** The schemas [client.py] imports from [serialization.py]. *)
Record schemas : Type := {
  PasswordlessProblemDetailsSchema : Schema PasswordlessProblemDetails;
  CreateAliasSchema : Schema CreateAlias.t;
  AliasListResponseSchema : Schema (ListResponse.t Alias.t);
  UpdateAppsFeatureSchema : Schema UpdateAppsFeature.t;
  DeleteCredentialSchema : Schema DeleteCredential.t;
  CredentialListResponseSchema : Schema (ListResponse.t Credential.t);
  RegisterTokenSchema : Schema RegisterToken.t;
  RegisteredTokenSchema : Schema RegisteredToken.t;
  VerifySignInSchema : Schema VerifySignIn.t;
  VerifiedUserSchema : Schema VerifiedUser.t;
  UserSummaryListResponseSchema : Schema (ListResponse.t UserSummary.t);
  DeleteUserSchema : Schema DeleteUser.t
}.

(** What a method call returns, by kind of operation. *)
Inductive answer : Type :=
| Nothing
| Aliases (l : list Alias.t)
| Credentials (l : list Credential.t)
| Registered (r : RegisteredToken.t)
| Verified (v : VerifiedUser.t)
| Users (l : list UserSummary.t).

(** Calling the method of the client that the operation names. *)
Definition invoke (S : schemas) (self : PasswordlessApiClientImpl.t) (op : operation)
  : M answer :=
  let pds := PasswordlessProblemDetailsSchema S in
  match op with
  | CreateAliasOp x =>
      PasswordlessApiClientImpl.create_alias pds (CreateAliasSchema S) self x;;
      mret Nothing
  | GetAliasesOp user_id =>
      l ← PasswordlessApiClientImpl.get_aliases pds (AliasListResponseSchema S) self user_id;
      mret (Aliases l)
  | UpdateAppsFeatureOp x =>
      PasswordlessApiClientImpl.update_apps_feature pds (UpdateAppsFeatureSchema S) self x;;
      mret Nothing
  | DeleteCredentialOp x =>
      PasswordlessApiClientImpl.delete_credential pds (DeleteCredentialSchema S) self x;;
      mret Nothing
  | GetCredentialsOp user_id =>
      l ← PasswordlessApiClientImpl.get_credentials pds (CredentialListResponseSchema S)
            self user_id;
      mret (Credentials l)
  | RegisterTokenOp x =>
      r ← PasswordlessApiClientImpl.register_token pds (RegisterTokenSchema S)
            (RegisteredTokenSchema S) self x;
      mret (Registered r)
  | SignInOp x =>
      v ← PasswordlessApiClientImpl.sign_in pds (VerifySignInSchema S)
            (VerifiedUserSchema S) self x;
      mret (Verified v)
  | GetUsersOp =>
      l ← PasswordlessApiClientImpl.get_users pds (UserSummaryListResponseSchema S) self;
      mret (Users l)
  | DeleteUserOp x =>
      PasswordlessApiClientImpl.delete_user pds (DeleteUserSchema S) self x;;
      mret Nothing
  end.

(** The operations without a return value. *)
Definition no_return (op : operation) : bool :=
  match op with
  | CreateAliasOp _ | UpdateAppsFeatureOp _ | DeleteCredentialOp _ | DeleteUserOp _ => true
  | _ => false
  end.

(** The endpoint table of the specification: verb, fixed path, query
    parameters and request body of each operation. *)
Definition verb (op : operation) : string :=
  match op with
  | GetAliasesOp _ | GetCredentialsOp _ | GetUsersOp => "GET"
  | _ => "POST"
  end.

Definition path (op : operation) : string :=
  match op with
  | CreateAliasOp _ => "/alias"
  | GetAliasesOp _ => "/alias/list"
  | UpdateAppsFeatureOp _ => "/apps/features"
  | DeleteCredentialOp _ => "/credentials/delete"
  | GetCredentialsOp _ => "/credentials/list"
  | RegisterTokenOp _ => "/register/token"
  | SignInOp _ => "/signin/verify"
  | GetUsersOp => "/users/list"
  | DeleteUserOp _ => "/users/delete"
  end.

Definition query (op : operation) : gmap string string :=
  match op with
  | GetAliasesOp user_id | GetCredentialsOp user_id => {[ "userId" := user_id ]}
  | _ => ∅
  end.

Definition payload (S : schemas) (op : operation) : option string :=
  match op with
  | CreateAliasOp x => Some (dumps (CreateAliasSchema S) x)
  | UpdateAppsFeatureOp x => Some (dumps (UpdateAppsFeatureSchema S) x)
  | DeleteCredentialOp x => Some (dumps (DeleteCredentialSchema S) x)
  | RegisterTokenOp x => Some (dumps (RegisterTokenSchema S) x)
  | SignInOp x => Some (dumps (VerifySignInSchema S) x)
  | DeleteUserOp x => Some (dumps (DeleteUserSchema S) x)
  | GetAliasesOp _ | GetCredentialsOp _ | GetUsersOp => None
  end.

(** The request the client builds for an operation. *)
Definition request_of (S : schemas) (self : PasswordlessApiClientImpl.t) (op : operation)
  : Request.t :=
  match payload S op with
  | Some data => PasswordlessApiClientImpl.post_request self (path op) data
  | None =>
      PasswordlessApiClientImpl.get_request self (path op)
        (match op with GetUsersOp => None | _ => Some (query op) end)
  end.

(* ===================================================================== *)
(** ** Ways of stating what a computation does *)
(* ===================================================================== *)

Definition returns {A : Type} (m : M A) (w : World) (a : A) : Prop :=
  fst (m w) = Return a.

Definition raises {A : Type} (m : M A) (w : World) (e : exception) : Prop :=
  fst (m w) = Raise e.

(** The computation hands exactly one request to a session. *)
Definition transmits {A : Type} (m : M A) (request : Request.t) : Prop :=
  ∀ w, sent (snd (m w)) = sent w ++ [request].

(** In world [w] the session of the client answers [request] with [response]. *)
Definition answers (self : PasswordlessApiClientImpl.t) (w : World)
    (request : Request.t) (response : Response.t) : Prop :=
  let s := PasswordlessApiClientImpl.session self in
  Session.send s (sent w ++ [request]) (Session.prepare_request s request) true 30
  = Return response.

(** The problem record synthesized for a response that does not declare one. *)
Definition synthesized (response : Response.t) : PasswordlessProblemDetails :=
  {| pd_type := "https://docs.passwordless.dev/guide/errors.html";
     pd_status := Response.status_code response;
     pd_title := "Unexpected error";
     pd_detail := Response.text response |}.

(** The Content-Type header is missing or does not begin with
    [application/problem+json]. *)
Definition undeclared (response : Response.t) : Prop :=
  CaseInsensitiveDict.get "Content-Type" (Response.headers response) = None
  ∨ ∃ content_type,
      CaseInsensitiveDict.get "Content-Type" (Response.headers response) = Some content_type
      ∧ Text.startswith content_type "application/problem+json" = false.

(** The Content-Type header begins with [application/problem+json]. *)
Definition declared (response : Response.t) : Prop :=
  ∃ content_type,
    CaseInsensitiveDict.get "Content-Type" (Response.headers response) = Some content_type
    ∧ Text.startswith content_type "application/problem+json" = true.

(* ===================================================================== *)
(** ** Test doubles *)
(* ===================================================================== *)

Module Stub.

(** A preparation that keeps method, headers and body and appends the
    query parameters to the URL. *)
Definition prepare (r : Request.t) : PreparedRequest.t :=
  let q := map_to_list (Request.params r) in
  {| PreparedRequest.method := Request.method r;
     PreparedRequest.url :=
       match q with
       | [] => Request.url r
       | _ => Request.url r +:+ "?"
              +:+ String.concat "&" ((λ kv, fst kv +:+ "=" +:+ snd kv) <$> q)
       end;
     PreparedRequest.headers := CaseInsensitiveDict.of_list (map_to_list (Request.headers r));
     PreparedRequest.body := Request.data r |}.

(** A session that gives the same reply to every request. *)
Definition session (id : nat) (reply : result Response.t) : Session.t :=
  {| Session.session_id := id;
     Session.prepare_request := prepare;
     Session.send := λ _ _ _ _, reply |}.

Definition response (status : Z) (content_type : option string) (body : string)
  : Response.t :=
  {| Response.status_code := status;
     Response.headers :=
       match content_type with
       | Some ct => CaseInsensitiveDict.of_list [("Content-Type", ct)]
       | None => ∅
       end;
     Response.text := body |}.

Definition options : PasswordlessOptions :=
  {| api_url := "https://v4.passwordless.dev"; api_secret := "demo:secret:f831e39c" |}.

Definition client (reply : result Response.t) : PasswordlessApiClientImpl.t :=
  PasswordlessApiClientImpl.init options (session 0 reply).

Definition world : World := {| clock := 0; sessions := ∅; sent := [] |}.

(** The schemas of the serialization layer with camelCase names on the wire. *)
Definition schemas : schemas :=
  {| PasswordlessProblemDetailsSchema := Serialization.PasswordlessProblemDetailsSchema;
     CreateAliasSchema := Serialization.CreateAliasSchema Serialization.camelcase;
     AliasListResponseSchema := Serialization.AliasListResponseSchema Serialization.camelcase;
     UpdateAppsFeatureSchema := Serialization.UpdateAppsFeatureSchema Serialization.camelcase;
     DeleteCredentialSchema := Serialization.DeleteCredentialSchema Serialization.camelcase;
     CredentialListResponseSchema :=
       Serialization.CredentialListResponseSchema Serialization.camelcase;
     RegisterTokenSchema := Serialization.RegisterTokenSchema Serialization.camelcase;
     RegisteredTokenSchema := Serialization.RegisteredTokenSchema Serialization.camelcase;
     VerifySignInSchema := Serialization.VerifySignInSchema Serialization.camelcase;
     VerifiedUserSchema := Serialization.VerifiedUserSchema Serialization.camelcase;
     UserSummaryListResponseSchema :=
       Serialization.UserSummaryListResponseSchema Serialization.camelcase;
     DeleteUserSchema := Serialization.DeleteUserSchema Serialization.camelcase |}.

End Stub.

(* ===================================================================== *)
(** ** Scenarios *)
(* ===================================================================== *)

(** A program that imports [models.py], lets [delay] microseconds pass,
    builds a token without [expires_at] and reads the clock. *)
Definition token_after (delay : Z) (user_id username display_name : string)
  : M (RegisterToken.t * Z) :=
  cls ← RegisterToken.define;
  elapse delay;;
  token ← RegisterToken.init cls user_id username display_name
            None None None None None None None;
  now ← utcnow;
  mret (token, now).

(** The world after [request] has been handed to a session. *)
Definition after_send (request : Request.t) (w : World) : World :=
  {| clock := clock w; sessions := sessions w; sent := sent w ++ [request] |}.

(** The exception error normalization ends in, case by case. *)
Definition normalized (S : Schema PasswordlessProblemDetails) (response : Response.t)
  : exception :=
  if declares_problem_json response
  then match loads S (Response.text response) with
       | Some problem_details => PasswordlessError problem_details
       | None => DeserializationError
       end
  else PasswordlessError (synthesized response).

(** What an operation makes of the text [send_request] returned: nothing
    for an operation without a return value, the decoded record or the
    [values] of the decoded envelope otherwise; [None] when the text does
    not decode. *)
Definition decode_answer (S : schemas) (op : operation) (text : string) : option answer :=
  match op with
  | CreateAliasOp _ | UpdateAppsFeatureOp _ | DeleteCredentialOp _ | DeleteUserOp _ =>
      Some Nothing
  | GetAliasesOp _ =>
      (λ r, Aliases (ListResponse.values r)) <$> loads (AliasListResponseSchema S) text
  | GetCredentialsOp _ =>
      (λ r, Credentials (ListResponse.values r))
        <$> loads (CredentialListResponseSchema S) text
  | GetUsersOp =>
      (λ r, Users (ListResponse.values r)) <$> loads (UserSummaryListResponseSchema S) text
  | RegisterTokenOp _ => Registered <$> loads (RegisteredTokenSchema S) text
  | SignInOp _ => Verified <$> loads (VerifiedUserSchema S) text
  end.

(** The transport of one client stands for that of another on every call
    made with [allow_redirects=True] and [timeout=30]. *)
Definition same_exchange (self self' : PasswordlessApiClientImpl.t) : Prop :=
  let s := PasswordlessApiClientImpl.session self in
  let s' := PasswordlessApiClientImpl.session self' in
  (∀ request, Session.prepare_request s request = Session.prepare_request s' request)
  ∧ ∀ history prepped, Session.send s history prepped true 30
                       = Session.send s' history prepped true 30.

(** A session that answers only a call made with [allow_redirects=True]
    and [timeout=30], and fails any other. *)
Definition strict_session (id : nat) (reply : Response.t) : Session.t :=
  {| Session.session_id := id;
     Session.prepare_request := Stub.prepare;
     Session.send := λ _ _ allow_redirects timeout,
       if allow_redirects && (timeout =? 30) then Return reply
       else Raise (TransportError "unexpected transport options") |}.

(* ===================================================================== *)
(** * Properties *)
(* ===================================================================== *)

Ltac run := unfold mbind, M_bind, mret, M_ret, decoded, raise; simpl.

(** ** The error normalizer *)

Lemma undeclared_not_declares response :
  undeclared response → declares_problem_json response = false.
Proof.
  unfold declares_problem_json.
  intros [-> | (ct & -> & Hct)]; [reflexivity | exact Hct].
Qed.

Lemma declared_declares response :
  declared response → declares_problem_json response = true.
Proof.
  unfold declares_problem_json. intros (ct & -> & Hct). exact Hct.
Qed.

Lemma declares_declared response :
  declares_problem_json response = true → declared response.
Proof.
  unfold declares_problem_json, declared.
  destruct (CaseInsensitiveDict.get _ _) as [ct|]; [eauto | discriminate].
Qed.

(** What [handle_response_error] raises, case by case. *)
Lemma handle_response_error_eq S response w :
  handle_response_error S response w = (Raise (normalized S response), w).
Proof.
  unfold handle_response_error, normalized. run.
  destruct (declares_problem_json response); [|reflexivity].
  destruct (loads S (Response.text response)); reflexivity.
Qed.

(** What [send_request] does with the answer of the transport. *)
Lemma send_request_answered S self request w response :
  answers self w request response →
  PasswordlessApiClientImpl.send_request S self request w
  = (if 400 <=? Response.status_code response
     then Raise (normalized S response)
     else Return (Response.text response),
     after_send request w).
Proof.
  unfold answers, PasswordlessApiClientImpl.send_request, Session_send,
    Session_prepare_request. run.
  intros ->. fold (after_send request w).
  destruct (400 <=? Response.status_code response); [|reflexivity].
  rewrite handle_response_error_eq. reflexivity.
Qed.

Lemma send_request_sent S self request w :
  sent (snd (PasswordlessApiClientImpl.send_request S self request w))
  = sent w ++ [request].
Proof.
  unfold PasswordlessApiClientImpl.send_request, Session_send, Session_prepare_request. run.
  destruct (Session.send _ _ _ _ _) as [response|e]; [|reflexivity].
  destruct (400 <=? Response.status_code response); [|reflexivity].
  rewrite handle_response_error_eq. reflexivity.
Qed.

(** The name of the Content-Type header is compared without case, its
    value with case. *)
Example content_type_name_is_case_insensitive :
  declares_problem_json
    {| Response.status_code := 400;
       Response.headers :=
         CaseInsensitiveDict.of_list
           [("content-type", "application/problem+json; charset=utf-8")];
       Response.text := "" |} = true
  ∧ declares_problem_json
      {| Response.status_code := 400;
         Response.headers :=
           CaseInsensitiveDict.of_list [("Content-Type", "Application/Problem+JSON")];
         Response.text := "" |} = false.
Proof. split; vm_compute; reflexivity. Qed.

(** A parse error leaves the normalizer exactly when the body is declared
    a problem document and does not decode. *)
Lemma parse_error_iff S response w :
  raises (handle_response_error S response) w DeserializationError
  ↔ declared response ∧ loads S (Response.text response) = None.
Proof.
  unfold raises. rewrite handle_response_error_eq. unfold normalized. simpl.
  split.
  - destruct (declares_problem_json response) eqn:Hd; [|discriminate].
    destruct (loads S (Response.text response)); [discriminate|].
    intros _. split; [by apply declares_declared | reflexivity].
  - intros [Hd ->]. by rewrite (declared_declares _ Hd).
Qed.

(** C1, as stated, fails: a 502 response declared
    [application/problem+json] whose body is an HTML page makes
    [handle_response_error] raise the decoder's error, not the normalized
    error. *)
Lemma undecodable_declared_body_raises_parse_error :
  let response :=
    Stub.response 502 (Some "application/problem+json") "<html>Bad Gateway</html>" in
  400 ≤ Response.status_code response
  ∧ handle_response_error Serialization.PasswordlessProblemDetailsSchema response Stub.world
    = (Raise DeserializationError, Stub.world).
Proof. split; [vm_compute; discriminate | vm_compute; reflexivity]. Qed.

(** C1 (amended): for every HTTP response, in particular one with status
    >= 400, whose Content-Type header is missing or does not begin with
    [application/problem+json], or whose body decodes as a problem-details
    document, [handle_response_error] raises the single normalized error
    type and no parse error, whatever the body is. *)
Theorem normalized_error_without_parse_error S response w :
  undeclared response ∨ is_Some (loads S (Response.text response)) →
  (∃ problem_details,
      handle_response_error S response w
      = (Raise (PasswordlessError problem_details), w))
  ∧ ¬ raises (handle_response_error S response) w DeserializationError.
Proof.
  intros H. unfold raises. rewrite handle_response_error_eq. unfold normalized. simpl.
  destruct H as [Hu | [pd Hpd]].
  - rewrite (undeclared_not_declares _ Hu). split; [eauto | discriminate].
  - rewrite Hpd. destruct (declares_problem_json response); split; eauto; discriminate.
Qed.

Lemma normalized_error_without_parse_error_witness :
  let response := Stub.response 500 (Some "text/plain") "<html>Bad Gateway</html>" in
  (undeclared response
   ∨ is_Some (loads Serialization.PasswordlessProblemDetailsSchema (Response.text response)))
  ∧ (∃ problem_details,
        handle_response_error Serialization.PasswordlessProblemDetailsSchema response
          Stub.world
        = (Raise (PasswordlessError problem_details), Stub.world))
  ∧ ¬ raises (handle_response_error Serialization.PasswordlessProblemDetailsSchema response)
        Stub.world DeserializationError.
Proof.
  intros response.
  assert (H : undeclared response).
  { right. exists "text/plain". split; vm_compute; reflexivity. }
  split; [left; exact H|].
  apply (normalized_error_without_parse_error
           Serialization.PasswordlessProblemDetailsSchema response Stub.world).
  left; exact H.
Defined.

(** C3: for every HTTP response, in particular one with status >= 400,
    whose Content-Type header is missing or does not begin with
    [application/problem+json], the raised error wraps a synthesized
    problem record: type the fixed documentation URL, status the HTTP
    status code, title "Unexpected error", detail the raw body text; and
    this is the error [send_request] raises when the transport answers
    with such a response of status >= 400. *)
Theorem undeclared_error_is_synthesized S response w :
  undeclared response →
  handle_response_error S response w
  = (Raise (PasswordlessError
              {| pd_type := "https://docs.passwordless.dev/guide/errors.html";
                 pd_status := Response.status_code response;
                 pd_title := "Unexpected error";
                 pd_detail := Response.text response |}), w)
  ∧ ∀ self request,
      answers self w request response → 400 ≤ Response.status_code response →
      raises (PasswordlessApiClientImpl.send_request S self request) w
        (PasswordlessError
           {| pd_type := "https://docs.passwordless.dev/guide/errors.html";
              pd_status := Response.status_code response;
              pd_title := "Unexpected error";
              pd_detail := Response.text response |}).
Proof.
  intros Hu. split.
  - rewrite handle_response_error_eq. unfold normalized.
    by rewrite (undeclared_not_declares _ Hu).
  - intros self request Ha Hs. unfold raises.
    rewrite (send_request_answered _ _ _ _ _ Ha). simpl.
    destruct (Z.leb_spec 400 (Response.status_code response)); [|lia].
    unfold normalized. by rewrite (undeclared_not_declares _ Hu).
Qed.

Lemma undeclared_error_is_synthesized_witness :
  let response := Stub.response 500 (Some "text/plain") "internal error" in
  undeclared response
  ∧ handle_response_error Serialization.PasswordlessProblemDetailsSchema response Stub.world
    = (Raise (PasswordlessError
                {| pd_type := "https://docs.passwordless.dev/guide/errors.html";
                   pd_status := 500;
                   pd_title := "Unexpected error";
                   pd_detail := "internal error" |}), Stub.world).
Proof.
  intros response.
  assert (H : undeclared response).
  { right. exists "text/plain". split; vm_compute; reflexivity. }
  split; [exact H|].
  exact (proj1 (undeclared_error_is_synthesized
                  Serialization.PasswordlessProblemDetailsSchema response Stub.world H)).
Defined.

(** C4: for every HTTP response, in particular one with status >= 400,
    whose Content-Type header begins with [application/problem+json] and
    whose body is a valid problem-details document, decoded by the schema
    to [problem_details], [handle_response_error] raises the error
    wrapping exactly [problem_details], not a synthesized record; and this
    is the error [send_request] raises when the transport answers with
    such a response of status >= 400. *)
Theorem declared_error_is_decoded S response w problem_details :
  declared response →
  loads S (Response.text response) = Some problem_details →
  handle_response_error S response w = (Raise (PasswordlessError problem_details), w)
  ∧ ∀ self request,
      answers self w request response → 400 ≤ Response.status_code response →
      raises (PasswordlessApiClientImpl.send_request S self request) w
        (PasswordlessError problem_details).
Proof.
  intros Hd Hl. split.
  - rewrite handle_response_error_eq. unfold normalized.
    by rewrite (declared_declares _ Hd), Hl.
  - intros self request Ha Hs. unfold raises.
    rewrite (send_request_answered _ _ _ _ _ Ha). simpl.
    destruct (Z.leb_spec 400 (Response.status_code response)); [|lia].
    unfold normalized. by rewrite (declared_declares _ Hd), Hl.
Qed.

Lemma declared_error_is_decoded_witness :
  let response :=
    Stub.response 400 (Some "application/problem+json")
      (Text.dq "{'type':'...','status':400,'title':'Bad user','detail':'username taken'}") in
  let problem_details :=
    {| pd_type := "..."; pd_status := 400;
       pd_title := "Bad user"; pd_detail := "username taken" |} in
  declared response
  ∧ loads Serialization.PasswordlessProblemDetailsSchema (Response.text response)
    = Some problem_details
  ∧ handle_response_error Serialization.PasswordlessProblemDetailsSchema response Stub.world
    = (Raise (PasswordlessError problem_details), Stub.world).
Proof.
  intros response problem_details.
  assert (Hd : declared response).
  { exists "application/problem+json". split; vm_compute; reflexivity. }
  assert (Hl : loads Serialization.PasswordlessProblemDetailsSchema (Response.text response)
               = Some problem_details) by (vm_compute; reflexivity).
  split; [exact Hd|]. split; [exact Hl|].
  exact (proj1 (declared_error_is_decoded
                  Serialization.PasswordlessProblemDetailsSchema response Stub.world
                  problem_details Hd Hl)).
Defined.

(** ** Operations *)

(** Every operation hands its one request to the session, whatever follows. *)
Lemma invoke_transmits S self op :
  transmits (invoke S self op) (request_of S self op).
Proof.
  intros w.
  pose proof (send_request_sent (PasswordlessProblemDetailsSchema S) self
                (request_of S self op) w) as Hsent.
  destruct op; simpl in *;
    unfold PasswordlessApiClientImpl.create_alias, PasswordlessApiClientImpl.get_aliases,
      PasswordlessApiClientImpl.update_apps_feature,
      PasswordlessApiClientImpl.delete_credential,
      PasswordlessApiClientImpl.get_credentials, PasswordlessApiClientImpl.register_token,
      PasswordlessApiClientImpl.sign_in, PasswordlessApiClientImpl.get_users,
      PasswordlessApiClientImpl.delete_user, request_of in *; simpl in *; run;
    match goal with
    | |- context [PasswordlessApiClientImpl.send_request ?a ?b ?c ?d] =>
        destruct (PasswordlessApiClientImpl.send_request a b c d) as [[text|e] w'];
        simpl in *; try exact Hsent
    end;
    match goal with
    | |- context [loads ?s ?x] => destruct (loads s x); simpl; exact Hsent
    end.
Qed.

(** An operation without a return value is its [send_request], the text
    of the response dropped. *)
Lemma invoke_no_return S self op w :
  no_return op = true →
  invoke S self op w
  = match PasswordlessApiClientImpl.send_request (PasswordlessProblemDetailsSchema S) self
            (request_of S self op) w with
    | (Return _, w') => (Return Nothing, w')
    | (Raise e, w') => (Raise e, w')
    end.
Proof.
  destruct op; try discriminate; intros _; simpl;
    unfold PasswordlessApiClientImpl.create_alias,
      PasswordlessApiClientImpl.update_apps_feature,
      PasswordlessApiClientImpl.delete_credential,
      PasswordlessApiClientImpl.delete_user, request_of; simpl; run;
    match goal with
    | |- context [PasswordlessApiClientImpl.send_request ?a ?b ?c ?d] =>
        destruct (PasswordlessApiClientImpl.send_request a b c d) as [[text|e] w'];
        reflexivity
    end.
Qed.

(** C5, as stated, fails: a 304 response is outside the 2xx range, and
    [create_alias] returns normally on it. *)
Lemma create_alias_returns_on_not_modified :
  let response := Stub.response 304 None "" in
  let self := Stub.client (Return response) in
  ¬ (200 ≤ Response.status_code response < 300)
  ∧ returns
      (PasswordlessApiClientImpl.create_alias
         Serialization.PasswordlessProblemDetailsSchema
         (Serialization.CreateAliasSchema Serialization.camelcase)
         self (CreateAlias.init "u1" ["a@b.com"] None))
      Stub.world tt.
Proof. split; [vm_compute; intros [_ H]; discriminate H | vm_compute; reflexivity]. Qed.

(** C5 (amended): [create_alias] and every other operation without a
    return value returns no value and raises nothing on every response
    with status below 400 (in particular on every 2xx response), and raises
    the normalized error on every response with status >= 400 whose
    Content-Type header is missing or does not begin with
    [application/problem+json], or whose body decodes as a problem-details
    document. *)
Theorem no_return_operation_outcome S self op w response :
  no_return op = true →
  answers self w (request_of S self op) response →
  (Response.status_code response < 400 → returns (invoke S self op) w Nothing)
  ∧ (400 ≤ Response.status_code response →
     undeclared response
     ∨ is_Some (loads (PasswordlessProblemDetailsSchema S) (Response.text response)) →
     ∃ problem_details,
       raises (invoke S self op) w (PasswordlessError problem_details)).
Proof.
  intros Hop Ha. unfold returns, raises.
  rewrite (invoke_no_return _ _ _ _ Hop), (send_request_answered _ _ _ _ _ Ha).
  split.
  - intros Hs. destruct (Z.leb_spec 400 (Response.status_code response)); [lia|].
    reflexivity.
  - intros Hs H. destruct (Z.leb_spec 400 (Response.status_code response)); [|lia].
    simpl. unfold normalized. destruct H as [Hu | [pd Hpd]].
    + rewrite (undeclared_not_declares _ Hu). eauto.
    + rewrite Hpd. destruct (declares_problem_json response); eauto.
Qed.

Lemma no_return_operation_outcome_witness :
  let response := Stub.response 500 (Some "text/plain") "internal error" in
  let self := Stub.client (Return response) in
  let op := CreateAliasOp (CreateAlias.init "u1" ["a@b.com"] None) in
  no_return op = true
  ∧ answers self Stub.world (request_of Stub.schemas self op) response
  ∧ 400 ≤ Response.status_code response
  ∧ undeclared response
  ∧ ∃ problem_details,
      raises (invoke Stub.schemas self op) Stub.world (PasswordlessError problem_details).
Proof.
  intros response self op.
  assert (Hu : undeclared response).
  { right. exists "text/plain". split; vm_compute; reflexivity. }
  assert (Hs : 400 ≤ Response.status_code response) by (vm_compute; discriminate).
  assert (Ha : answers self Stub.world (request_of Stub.schemas self op) response)
    by reflexivity.
  split; [reflexivity|]. split; [exact Ha|]. split; [exact Hs|]. split; [exact Hu|].
  exact (proj2 (no_return_operation_outcome Stub.schemas self op Stub.world response
                  eq_refl Ha) Hs (or_introl Hu)).
Defined.

(** C10: for every operation without a return value ([create_alias],
    [update_apps_feature], [delete_credential], [delete_user]), any 2xx
    response yields no value whatever its body: the call returns, and
    neither what it returns nor the world it leaves depends on the text of
    the response. *)
Theorem no_return_operation_ignores_body S self op w response :
  no_return op = true →
  answers self w (request_of S self op) response →
  200 ≤ Response.status_code response < 300 →
  invoke S self op w = (Return Nothing, after_send (request_of S self op) w).
Proof.
  intros Hop Ha Hs.
  rewrite (invoke_no_return _ _ _ _ Hop), (send_request_answered _ _ _ _ _ Ha).
  destruct (Z.leb_spec 400 (Response.status_code response)); [lia|]. reflexivity.
Qed.

Lemma no_return_operation_ignores_body_witness :
  let response := Stub.response 200 (Some "text/html") "<p>not a JSON document</p>" in
  let self := Stub.client (Return response) in
  let op := DeleteUserOp {| DeleteUser.user_id := "u1" |} in
  no_return op = true
  ∧ answers self Stub.world (request_of Stub.schemas self op) response
  ∧ 200 ≤ Response.status_code response < 300
  ∧ invoke Stub.schemas self op Stub.world
    = (Return Nothing, after_send (request_of Stub.schemas self op) Stub.world).
Proof.
  intros response self op.
  assert (Hs : 200 ≤ Response.status_code response < 300)
    by (split; vm_compute; [discriminate | reflexivity]).
  assert (Ha : answers self Stub.world (request_of Stub.schemas self op) response)
    by reflexivity.
  split; [reflexivity|]. split; [exact Ha|]. split; [exact Hs|].
  exact (no_return_operation_ignores_body Stub.schemas self op Stub.world response
           eq_refl Ha Hs).
Defined.

(** ** Requests *)

(** C7: every request built by the client carries an [ApiSecret] header
    whose value is the configured secret; every POST request carries in
    addition [Content-Type: application/json; charset=UTF-8], and a GET
    request carries the [ApiSecret] header only.  Each operation hands the
    session one such request, of the verb of the endpoint table. *)
Theorem requests_carry_secret_and_content_type S self :
  (∀ path query_params,
      Request.headers (PasswordlessApiClientImpl.get_request self path query_params)
      = {[ "ApiSecret" := api_secret (PasswordlessApiClientImpl.options self) ]})
  ∧ (∀ path data,
        Request.headers (PasswordlessApiClientImpl.post_request self path data)
        = <["Content-Type" := "application/json; charset=UTF-8"]>
            {[ "ApiSecret" := api_secret (PasswordlessApiClientImpl.options self) ]})
  ∧ ∀ op,
      let request := request_of S self op in
      transmits (invoke S self op) request
      ∧ Request.method request = verb op
      ∧ Request.headers request !! "ApiSecret"
        = Some (api_secret (PasswordlessApiClientImpl.options self))
      ∧ Request.headers request !! "Content-Type"
        = if String.eqb (verb op) "POST"
          then Some "application/json; charset=UTF-8" else None.
Proof.
  split; [reflexivity|]. split; [reflexivity|].
  intros op request. split; [apply invoke_transmits|].
  subst request. destruct op; simpl; repeat split; done.
Qed.

(** C8: for every operation the request URL is the configured base URL
    followed by the operation's fixed path, by plain concatenation; query
    parameters are sent by [get_aliases] and [get_credentials] only, as the
    single parameter [userId] set to the given user id; [get_users] and the
    POST operations send none. *)
Theorem request_url_and_query S self op :
  let request := request_of S self op in
  transmits (invoke S self op) request
  ∧ Request.url request = api_url (PasswordlessApiClientImpl.options self) +:+ path op
  ∧ Request.params request
    = match op with
      | GetAliasesOp user_id | GetCredentialsOp user_id => {[ "userId" := user_id ]}
      | _ => ∅
      end.
Proof.
  intros request. split; [apply invoke_transmits|].
  subst request. destruct op; split; reflexivity.
Qed.

(** The base URL and the path are joined as they are: a base URL with a
    trailing slash gives a double slash. *)
Example build_url_keeps_trailing_slash :
  PasswordlessApiClientImpl.build_url
    (PasswordlessApiClientImpl.init
       {| api_url := "https://v4.passwordless.dev/"; api_secret := "s" |}
       (Stub.session 0 (Raise (TransportError "unused"))))
    "/alias/list"
  = "https://v4.passwordless.dev//alias/list".
Proof. reflexivity. Qed.

(** ** List operations *)

(** The list envelope decodes to the decoded elements, in document order. *)
Lemma list_response_loads {T : Type} (item : Serialization.Fields T) text members items vs :
  Json.json_loads text = Some (Json.JObj members) →
  Json.member "values" members = Some (Json.JArr items) →
  Forall2 (λ j v, Serialization.load item j = Some v) items vs →
  loads (Serialization.schema (Serialization.list_response_fields item)) text
  = Some (ListResponse.Build_t vs).
Proof.
  intros Hj Hm Hf. simpl. rewrite Hj. simpl. rewrite Hm. simpl.
  apply mapM_Some in Hf. rewrite Hf. reflexivity.
Qed.

(** A list operation after its [send_request]: decode, then [values]. *)
Lemma list_operation_returns {T : Type} S (schema : Schema (ListResponse.t T))
    self request w response vs :
  answers self w request response →
  Response.status_code response < 400 →
  loads schema (Response.text response) = Some (ListResponse.Build_t vs) →
  (response_data ← PasswordlessApiClientImpl.send_request S self request;
   list_response ← decoded (loads schema response_data);
   mret (ListResponse.values list_response)) w
  = (Return vs, after_send request w).
Proof.
  intros Ha Hs Hl. run. rewrite (send_request_answered _ _ _ _ _ Ha).
  destruct (Z.leb_spec 400 (Response.status_code response)); [lia|].
  rewrite Hl. reflexivity.
Qed.

(** C6: for every successful response (status below 400, in particular
    2xx) to [get_aliases], [get_credentials] or [get_users] whose body is a
    list envelope, the returned sequence holds exactly the decoded elements
    of the envelope, in the order of the document; when the envelope holds
    no element the operation returns the empty sequence and raises
    nothing. *)
Theorem list_operations_keep_server_order
    (alias_item : Serialization.Fields Alias.t)
    (credential_item : Serialization.Fields Credential.t)
    (user_item : Serialization.Fields UserSummary.t)
    S self w response members items :
  Response.status_code response < 400 →
  Json.json_loads (Response.text response) = Some (Json.JObj members) →
  Json.member "values" members = Some (Json.JArr items) →
  (∀ user_id vs,
      answers self w
        (PasswordlessApiClientImpl.get_request self "/alias/list"
           (Some {[ "userId" := user_id ]})) response →
      Forall2 (λ j v, Serialization.load alias_item j = Some v) items vs →
      returns (PasswordlessApiClientImpl.get_aliases S
                 (Serialization.schema (Serialization.list_response_fields alias_item))
                 self user_id) w vs)
  ∧ (∀ user_id vs,
        answers self w
          (PasswordlessApiClientImpl.get_request self "/credentials/list"
             (Some {[ "userId" := user_id ]})) response →
        Forall2 (λ j v, Serialization.load credential_item j = Some v) items vs →
        returns (PasswordlessApiClientImpl.get_credentials S
                   (Serialization.schema
                      (Serialization.list_response_fields credential_item))
                   self user_id) w vs)
  ∧ (∀ vs,
        answers self w
          (PasswordlessApiClientImpl.get_request self "/users/list" None) response →
        Forall2 (λ j v, Serialization.load user_item j = Some v) items vs →
        returns (PasswordlessApiClientImpl.get_users S
                   (Serialization.schema (Serialization.list_response_fields user_item))
                   self) w vs)
  ∧ (items = [] →
     (∀ user_id,
         answers self w
           (PasswordlessApiClientImpl.get_request self "/alias/list"
              (Some {[ "userId" := user_id ]})) response →
         returns (PasswordlessApiClientImpl.get_aliases S
                    (Serialization.schema (Serialization.list_response_fields alias_item))
                    self user_id) w [])
     ∧ (∀ user_id,
           answers self w
             (PasswordlessApiClientImpl.get_request self "/credentials/list"
                (Some {[ "userId" := user_id ]})) response →
           returns (PasswordlessApiClientImpl.get_credentials S
                      (Serialization.schema
                         (Serialization.list_response_fields credential_item))
                      self user_id) w [])
     ∧ (answers self w
          (PasswordlessApiClientImpl.get_request self "/users/list" None) response →
        returns (PasswordlessApiClientImpl.get_users S
                   (Serialization.schema (Serialization.list_response_fields user_item))
                   self) w [])).
Proof.
  intros Hs Hj Hm.
  assert (Hget : ∀ (T : Type) (item : Serialization.Fields T) request vs,
             answers self w request response →
             Forall2 (λ j v, Serialization.load item j = Some v) items vs →
             fst ((response_data ← PasswordlessApiClientImpl.send_request S self request;
                   list_response ←
                     decoded (loads (Serialization.schema
                                       (Serialization.list_response_fields item))
                                response_data);
                   mret (ListResponse.values list_response)) w) = Return vs).
  { intros T item request vs Ha Hf.
    rewrite (list_operation_returns S _ self request w response vs Ha Hs
               (list_response_loads item _ _ _ _ Hj Hm Hf)).
    reflexivity. }
  unfold returns, PasswordlessApiClientImpl.get_aliases,
    PasswordlessApiClientImpl.get_credentials, PasswordlessApiClientImpl.get_users.
  repeat split.
  - intros user_id vs. apply Hget.
  - intros user_id vs. apply Hget.
  - intros vs. apply Hget.
  - intros user_id Ha. subst items. by apply Hget.
  - intros user_id Ha. subst items. by apply Hget.
  - intros Ha. subst items. by apply Hget.
Qed.

Lemma list_operations_keep_server_order_witness :
  let body :=
    Text.dq ("{'values': [{'userId':'u1','alias':'zoe','plaintext':'zoe','tenant':'t'},"
             +:+ " {'userId':'u1','alias':'amy','plaintext':'amy','tenant':'t'}]}") in
  let response := Stub.response 200 (Some "application/json") body in
  let self := Stub.client (Return response) in
  let item (alias : string) : Json.json :=
    Json.JObj [("userId", Json.JStr "u1"); ("alias", Json.JStr alias);
               ("plaintext", Json.JStr alias); ("tenant", Json.JStr "t")] in
  let value (alias : string) : Alias.t :=
    {| Alias.user_id := "u1"; Alias.alias := alias;
       Alias.plaintext := alias; Alias.tenant := "t" |} in
  Response.status_code response < 400
  ∧ Json.json_loads (Response.text response)
    = Some (Json.JObj [("values", Json.JArr [item "zoe"; item "amy"])])
  ∧ Json.member "values" [("values", Json.JArr [item "zoe"; item "amy"])]
    = Some (Json.JArr [item "zoe"; item "amy"])
  ∧ returns (PasswordlessApiClientImpl.get_aliases
               Serialization.PasswordlessProblemDetailsSchema
               (Serialization.AliasListResponseSchema Serialization.camelcase)
               self "u1") Stub.world [value "zoe"; value "amy"].
Proof.
  intros body response self item value.
  assert (Hs : Response.status_code response < 400) by (vm_compute; reflexivity).
  assert (Hj : Json.json_loads (Response.text response)
               = Some (Json.JObj [("values", Json.JArr [item "zoe"; item "amy"])]))
    by (vm_compute; reflexivity).
  assert (Hm : Json.member "values" [("values", Json.JArr [item "zoe"; item "amy"])]
               = Some (Json.JArr [item "zoe"; item "amy"])) by (vm_compute; reflexivity).
  split; [exact Hs|]. split; [exact Hj|]. split; [exact Hm|].
  refine (proj1 (list_operations_keep_server_order
                   (Serialization.alias_fields Serialization.camelcase)
                   (Serialization.credential_fields Serialization.camelcase)
                   (Serialization.user_summary_fields Serialization.camelcase)
                   Serialization.PasswordlessProblemDetailsSchema
                   self Stub.world response _ _ Hs Hj Hm) "u1" _ _ _).
  - reflexivity.
  - repeat constructor.
Defined.

(** The scenario of the specification: [GET /users/list] answered with an
    empty envelope gives the empty sequence. *)
Example get_users_empty_envelope :
  returns (PasswordlessApiClientImpl.get_users
             Serialization.PasswordlessProblemDetailsSchema
             (Serialization.UserSummaryListResponseSchema Serialization.camelcase)
             (Stub.client (Return (Stub.response 200 (Some "application/json")
                                     (Text.dq "{'values': []}")))))
    Stub.world [].
Proof. vm_compute. reflexivity. Qed.

(** ** The client builder *)

(** C9: the builder, given configuration and an optional session, builds
    a client whose configuration is the one given and whose session is
    exactly the supplied one when there is one (no session is constructed),
    and otherwise a default session constructed for it, distinct from every
    session that existed before. *)
Theorem builder_uses_given_or_fresh_session network_prepare network_send options w :
  (∀ session,
      ∃ builder,
        PasswordlessApiClientBuilder.init network_prepare network_send options
          (Some session) w = (Return builder, w)
        ∧ PasswordlessApiClientImpl.session (PasswordlessApiClientBuilder.build builder)
          = session
        ∧ PasswordlessApiClientImpl.options (PasswordlessApiClientBuilder.build builder)
          = options)
  ∧ ∃ builder w',
      PasswordlessApiClientBuilder.init network_prepare network_send options None w
      = (Return builder, w')
      ∧ (let client := PasswordlessApiClientBuilder.build builder in
         let session := PasswordlessApiClientImpl.session client in
         PasswordlessApiClientImpl.options client = options
         ∧ Session.session_id session ∉ sessions w
         ∧ sessions w' = {[ Session.session_id session ]} ∪ sessions w
         ∧ Session.prepare_request session = network_prepare
         ∧ Session.send session = network_send
         ∧ clock w' = clock w ∧ sent w' = sent w).
Proof.
  split.
  - intros session. eexists. split; [reflexivity|]. split; reflexivity.
  - eexists _, _. split; [reflexivity|]. simpl.
    repeat split; try reflexivity. apply is_fresh.
Qed.

(** ** The default expiry of a registration token *)

(** A token built without [expires_at] expires two minutes after the
    import of [models.py], however much later it is built. *)
Lemma token_after_expiry delay user_id username display_name w :
  ∃ token,
    token_after delay user_id username display_name w
    = (Return (token, clock w + delay),
       {| clock := clock w + delay; sessions := sessions w; sent := sent w |})
    ∧ RegisterToken.expires_at token = clock w + timedelta_minutes 2.
Proof. eexists. split; reflexivity. Qed.

(** C2 does not hold of the code: with [models.py] imported at time 0 and
    a token built one hour later without [expires_at], the token's expiry
    is minute 2, not the time of construction plus two minutes (minute
    62). *)
Theorem default_expiry_is_fixed_at_import :
  ∃ token now,
    returns (token_after (timedelta_minutes 60) "u1" "bob" "Bob") Stub.world (token, now)
    ∧ now = timedelta_minutes 60
    ∧ RegisterToken.expires_at token = timedelta_minutes 2
    ∧ RegisterToken.expires_at token ≠ now + timedelta_minutes 2.
Proof.
  eexists _, _. split; [reflexivity|]. split; [reflexivity|]. split; [reflexivity|].
  vm_compute. discriminate.
Qed.

(* ===================================================================== *)
(** * Further properties of the client *)
(* ===================================================================== *)

Ltac unfold_operations :=
  unfold PasswordlessApiClientImpl.create_alias, PasswordlessApiClientImpl.get_aliases,
    PasswordlessApiClientImpl.update_apps_feature,
    PasswordlessApiClientImpl.delete_credential,
    PasswordlessApiClientImpl.get_credentials, PasswordlessApiClientImpl.register_token,
    PasswordlessApiClientImpl.sign_in, PasswordlessApiClientImpl.get_users,
    PasswordlessApiClientImpl.delete_user, request_of in *.

(** Every operation is its [send_request] followed by the decoding of the
    text it returned. *)
Lemma invoke_send_request S self op w :
  invoke S self op w
  = match PasswordlessApiClientImpl.send_request (PasswordlessProblemDetailsSchema S) self
            (request_of S self op) w with
    | (Return text, w') =>
        (match decode_answer S op text with
         | Some a => Return a
         | None => Raise DeserializationError
         end, w')
    | (Raise e, w') => (Raise e, w')
    end.
Proof.
  destruct op; simpl; unfold_operations; simpl; run;
    match goal with
    | |- context [PasswordlessApiClientImpl.send_request ?a ?b ?c ?d] =>
        destruct (PasswordlessApiClientImpl.send_request a b c d) as [[text|e] w'];
        simpl; try reflexivity
    end;
    match goal with
    | |- context [loads ?s ?x] => destruct (loads s x); reflexivity
    end.
Qed.


(** ** The error normalizer never returns *)

(** X1: [handle_response_error] returns for no response: it always raises,
    leaves the world as it found it, and what it raises is the normalized
    error or, only for a body declared [application/problem+json], the
    decoder's error; it raises no transport error. *)
Theorem handle_response_error_always_raises S response w :
  ∃ e,
    handle_response_error S response w = (Raise e, w)
    ∧ ((∃ problem_details, e = PasswordlessError problem_details)
       ∨ (e = DeserializationError ∧ declared response
          ∧ loads S (Response.text response) = None)).
Proof.
  rewrite handle_response_error_eq. eexists. split; [reflexivity|].
  unfold normalized. destruct (declares_problem_json response) eqn:Hd; [|eauto].
  destruct (loads S (Response.text response)); [eauto|].
  right. split; [reflexivity|]. split; [by apply declares_declared | reflexivity].
Qed.

(** X2: the Content-Type is matched by prefix: a value that continues
    after [application/problem+json] (media-type parameters such as a
    charset) still has its body decoded, and the error raised wraps the
    decoded record. *)
Theorem problem_json_with_parameters_is_decoded S response w suffix problem_details :
  CaseInsensitiveDict.get "Content-Type" (Response.headers response)
  = Some ("application/problem+json" +:+ suffix) →
  loads S (Response.text response) = Some problem_details →
  handle_response_error S response w = (Raise (PasswordlessError problem_details), w).
Proof.
  intros Hh Hl. rewrite handle_response_error_eq. unfold normalized.
  assert (Hd : declares_problem_json response = true).
  { unfold declares_problem_json. rewrite Hh. unfold Text.startswith.
    clear. vm_compute String.append.
    repeat (cbn [String.prefix]; rewrite ?Ascii.eqb_refl). destruct suffix; reflexivity. }
  by rewrite Hd, Hl.
Qed.

Lemma problem_json_with_parameters_is_decoded_witness :
  let response :=
    Stub.response 422 (Some "application/problem+json; charset=utf-8")
      (Text.dq "{'type':'about:blank','status':422,'title':'Invalid','detail':'bad alias'}") in
  let problem_details :=
    {| pd_type := "about:blank"; pd_status := 422;
       pd_title := "Invalid"; pd_detail := "bad alias" |} in
  CaseInsensitiveDict.get "Content-Type" (Response.headers response)
  = Some ("application/problem+json" +:+ "; charset=utf-8")
  ∧ loads Serialization.PasswordlessProblemDetailsSchema (Response.text response)
    = Some problem_details
  ∧ handle_response_error Serialization.PasswordlessProblemDetailsSchema response Stub.world
    = (Raise (PasswordlessError problem_details), Stub.world).
Proof.
  intros response problem_details.
  assert (Hh : CaseInsensitiveDict.get "Content-Type" (Response.headers response)
               = Some ("application/problem+json" +:+ "; charset=utf-8"))
    by (vm_compute; reflexivity).
  assert (Hl : loads Serialization.PasswordlessProblemDetailsSchema (Response.text response)
               = Some problem_details) by (vm_compute; reflexivity).
  split; [exact Hh|]. split; [exact Hl|].
  exact (problem_json_with_parameters_is_decoded
           Serialization.PasswordlessProblemDetailsSchema response Stub.world
           "; charset=utf-8" problem_details Hh Hl).
Defined.

(** ** [send_request] *)

(** X3: [send_request] returns exactly when the status of the response is
    below 400, and what it returns is the text of the response unchanged;
    the request has been handed to the session either way. *)
Theorem send_request_returns_iff_below_400 S self request w response :
  answers self w request response →
  ((∃ text, returns (PasswordlessApiClientImpl.send_request S self request) w text)
   ↔ Response.status_code response < 400)
  ∧ (∀ text, returns (PasswordlessApiClientImpl.send_request S self request) w text →
             text = Response.text response)
  ∧ snd (PasswordlessApiClientImpl.send_request S self request w) = after_send request w.
Proof.
  intros Ha. unfold returns. rewrite (send_request_answered _ _ _ _ _ Ha). simpl.
  destruct (Z.leb_spec 400 (Response.status_code response)).
  - split; [split; [intros [? ?]; discriminate | lia]|].
    split; [intros ? ?; discriminate | reflexivity].
  - split; [split; [lia | eauto]|].
    split; [congruence | reflexivity].
Qed.

Lemma send_request_returns_iff_below_400_witness :
  let response := Stub.response 399 None "almost an error" in
  let self := Stub.client (Return response) in
  let request := PasswordlessApiClientImpl.get_request self "/users/list" None in
  answers self Stub.world request response
  ∧ ((∃ text,
        returns (PasswordlessApiClientImpl.send_request
                   Serialization.PasswordlessProblemDetailsSchema self request)
          Stub.world text)
     ↔ Response.status_code response < 400).
Proof.
  intros response self request.
  assert (Ha : answers self Stub.world request response) by reflexivity.
  split; [exact Ha|].
  exact (proj1 (send_request_returns_iff_below_400
                  Serialization.PasswordlessProblemDetailsSchema self request Stub.world
                  response Ha)).
Defined.



(** ** Operations and the status of the response *)

Lemma invoke_answered S self op w response :
  answers self w (request_of S self op) response →
  invoke S self op w
  = (if 400 <=? Response.status_code response
     then Raise (normalized (PasswordlessProblemDetailsSchema S) response)
     else match decode_answer S op (Response.text response) with
          | Some a => Return a
          | None => Raise DeserializationError
          end,
     after_send (request_of S self op) w).
Proof.
  intros Ha. rewrite invoke_send_request, (send_request_answered _ _ _ _ _ Ha).
  destruct (400 <=? Response.status_code response); reflexivity.
Qed.

(** X5: on a response with status >= 400 no operation returns: each of the
    nine raises what [handle_response_error] raises for that response, and
    never looks at the body through its own response schema. *)
Theorem error_status_never_returns S self op w response :
  answers self w (request_of S self op) response →
  400 ≤ Response.status_code response →
  ∃ e,
    handle_response_error (PasswordlessProblemDetailsSchema S) response
      (after_send (request_of S self op) w)
    = (Raise e, after_send (request_of S self op) w)
    ∧ invoke S self op w = (Raise e, after_send (request_of S self op) w).
Proof.
  intros Ha Hs. rewrite (invoke_answered _ _ _ _ _ Ha), handle_response_error_eq.
  destruct (Z.leb_spec 400 (Response.status_code response)); [|lia].
  eexists. split; reflexivity.
Qed.

Lemma error_status_never_returns_witness :
  let response := Stub.response 400 None (Text.dq "{'values': []}") in
  let self := Stub.client (Return response) in
  let op := GetUsersOp in
  answers self Stub.world (request_of Stub.schemas self op) response
  ∧ 400 ≤ Response.status_code response
  ∧ ∃ e,
      handle_response_error (PasswordlessProblemDetailsSchema Stub.schemas) response
        (after_send (request_of Stub.schemas self op) Stub.world)
      = (Raise e, after_send (request_of Stub.schemas self op) Stub.world)
      ∧ invoke Stub.schemas self op Stub.world
        = (Raise e, after_send (request_of Stub.schemas self op) Stub.world).
Proof.
  intros response self op.
  assert (Ha : answers self Stub.world (request_of Stub.schemas self op) response)
    by reflexivity.
  assert (Hs : 400 ≤ Response.status_code response) by (vm_compute; discriminate).
  split; [exact Ha|]. split; [exact Hs|].
  exact (error_status_never_returns Stub.schemas self op Stub.world response Ha Hs).
Defined.

(** X6: on a response with status below 400 the only error an operation
    can raise is the decoder's, and only an operation that returns a value
    can raise it; the normalized error is never raised there. *)
Theorem below_400_only_decoding_fails S self op w response e :
  answers self w (request_of S self op) response →
  Response.status_code response < 400 →
  raises (invoke S self op) w e →
  e = DeserializationError ∧ no_return op = false.
Proof.
  intros Ha Hs. unfold raises. rewrite (invoke_answered _ _ _ _ _ Ha). simpl.
  destruct (Z.leb_spec 400 (Response.status_code response)); [lia|].
  destruct op; simpl;
    try (intros [=]; fail);
    match goal with
    | |- context [loads ?s ?x] => destruct (loads s x); simpl; intros [= <-]; done
    end.
Qed.

Lemma below_400_only_decoding_fails_witness :
  let response := Stub.response 200 (Some "text/html") "<p>maintenance</p>" in
  let self := Stub.client (Return response) in
  let op := GetAliasesOp "u1" in
  answers self Stub.world (request_of Stub.schemas self op) response
  ∧ Response.status_code response < 400
  ∧ raises (invoke Stub.schemas self op) Stub.world DeserializationError
  ∧ DeserializationError = DeserializationError ∧ no_return op = false.
Proof.
  intros response self op.
  assert (Ha : answers self Stub.world (request_of Stub.schemas self op) response)
    by reflexivity.
  assert (Hs : Response.status_code response < 400) by (vm_compute; reflexivity).
  assert (Hr : raises (invoke Stub.schemas self op) Stub.world DeserializationError)
    by (vm_compute; reflexivity).
  split; [exact Ha|]. split; [exact Hs|]. split; [exact Hr|].
  exact (below_400_only_decoding_fails Stub.schemas self op Stub.world response
           DeserializationError Ha Hs Hr).
Defined.

(** X7: [register_token] and [sign_in] post the encoded argument and, on a
    response with status below 400, return exactly what the response schema
    decodes from the body; a body that does not decode raises the decoder's
    error instead of returning a partial result. *)
Theorem token_operations_decode_the_body S request_schema response_schema
    verify_schema verified_schema self w response :
  Response.status_code response < 400 →
  (∀ register_token,
      answers self w
        (PasswordlessApiClientImpl.post_request self "/register/token"
           (dumps request_schema register_token)) response →
      fst (PasswordlessApiClientImpl.register_token S request_schema response_schema
             self register_token w)
      = match loads response_schema (Response.text response) with
        | Some registered => Return registered
        | None => Raise DeserializationError
        end)
  ∧ (∀ verify_sign_in,
        answers self w
          (PasswordlessApiClientImpl.post_request self "/signin/verify"
             (dumps verify_schema verify_sign_in)) response →
        fst (PasswordlessApiClientImpl.sign_in S verify_schema verified_schema
               self verify_sign_in w)
        = match loads verified_schema (Response.text response) with
          | Some verified => Return verified
          | None => Raise DeserializationError
          end).
Proof.
  intros Hs.
  split; intros x Ha;
    unfold PasswordlessApiClientImpl.register_token, PasswordlessApiClientImpl.sign_in;
    run; rewrite (send_request_answered _ _ _ _ _ Ha);
    (destruct (Z.leb_spec 400 (Response.status_code response)); [lia|]);
    match goal with
    | |- context [loads ?s ?x] => destruct (loads s x); reflexivity
    end.
Qed.

Lemma token_operations_decode_the_body_witness :
  let response :=
    Stub.response 200 (Some "application/json") (Text.dq "{'token': 'verify_k8QbXx'}") in
  let self := Stub.client (Return response) in
  Response.status_code response < 400
  ∧ fst (PasswordlessApiClientImpl.sign_in Serialization.PasswordlessProblemDetailsSchema
           (Serialization.VerifySignInSchema Serialization.camelcase)
           (Serialization.VerifiedUserSchema Serialization.camelcase)
           self {| VerifySignIn.token := "verify_k8QbXx" |} Stub.world)
    = match loads (Serialization.VerifiedUserSchema Serialization.camelcase)
              (Response.text response) with
      | Some verified => Return verified
      | None => Raise DeserializationError
      end.
Proof.
  intros response self.
  assert (Hs : Response.status_code response < 400) by (vm_compute; reflexivity).
  split; [exact Hs|].
  exact (proj2 (token_operations_decode_the_body
                  Serialization.PasswordlessProblemDetailsSchema
                  (Serialization.RegisterTokenSchema Serialization.camelcase)
                  (Serialization.RegisteredTokenSchema Serialization.camelcase)
                  (Serialization.VerifySignInSchema Serialization.camelcase)
                  (Serialization.VerifiedUserSchema Serialization.camelcase)
                  self Stub.world response Hs)
           {| VerifySignIn.token := "verify_k8QbXx" |} eq_refl).
Defined.

(** X8: for any list-response schema, [get_aliases], [get_credentials] and
    [get_users] return, on a response with status below 400, the [values]
    of whatever the schema decodes from the body, and raise the decoder's
    error when the body does not decode: a list is never returned in
    part. *)
Theorem list_operations_decode_or_raise S alias_schema credential_schema user_schema
    self w response :
  Response.status_code response < 400 →
  (∀ user_id,
      answers self w
        (PasswordlessApiClientImpl.get_request self "/alias/list"
           (Some {[ "userId" := user_id ]})) response →
      fst (PasswordlessApiClientImpl.get_aliases S alias_schema self user_id w)
      = match loads alias_schema (Response.text response) with
        | Some list_response => Return (ListResponse.values list_response)
        | None => Raise DeserializationError
        end)
  ∧ (∀ user_id,
        answers self w
          (PasswordlessApiClientImpl.get_request self "/credentials/list"
             (Some {[ "userId" := user_id ]})) response →
        fst (PasswordlessApiClientImpl.get_credentials S credential_schema self user_id w)
        = match loads credential_schema (Response.text response) with
          | Some list_response => Return (ListResponse.values list_response)
          | None => Raise DeserializationError
          end)
  ∧ (answers self w
       (PasswordlessApiClientImpl.get_request self "/users/list" None) response →
     fst (PasswordlessApiClientImpl.get_users S user_schema self w)
     = match loads user_schema (Response.text response) with
       | Some list_response => Return (ListResponse.values list_response)
       | None => Raise DeserializationError
       end).
Proof.
  intros Hs.
  repeat split; intros;
    unfold PasswordlessApiClientImpl.get_aliases, PasswordlessApiClientImpl.get_credentials,
      PasswordlessApiClientImpl.get_users;
    run;
    match goal with
    | Ha : answers _ _ _ _ |- _ => rewrite (send_request_answered _ _ _ _ _ Ha)
    end;
    (destruct (Z.leb_spec 400 (Response.status_code response)); [lia|]);
    match goal with
    | |- context [loads ?s ?x] => destruct (loads s x); reflexivity
    end.
Qed.

Lemma list_operations_decode_or_raise_witness :
  let response := Stub.response 200 (Some "application/json") (Text.dq "{'values': 7}") in
  let self := Stub.client (Return response) in
  Response.status_code response < 400
  ∧ fst (PasswordlessApiClientImpl.get_users Serialization.PasswordlessProblemDetailsSchema
           (Serialization.UserSummaryListResponseSchema Serialization.camelcase)
           self Stub.world)
    = Raise DeserializationError.
Proof.
  intros response self.
  assert (Hs : Response.status_code response < 400) by (vm_compute; reflexivity).
  split; [exact Hs|].
  exact (proj2 (proj2 (list_operations_decode_or_raise
                         Serialization.PasswordlessProblemDetailsSchema
                         (Serialization.AliasListResponseSchema Serialization.camelcase)
                         (Serialization.CredentialListResponseSchema
                            Serialization.camelcase)
                         (Serialization.UserSummaryListResponseSchema
                            Serialization.camelcase)
                         self Stub.world response Hs)) eq_refl).
Defined.

(** ** The exchange with the transport *)

Lemma request_of_options S self self' op :
  PasswordlessApiClientImpl.options self = PasswordlessApiClientImpl.options self' →
  request_of S self op = request_of S self' op.
Proof.
  intros Ho.
  unfold request_of, PasswordlessApiClientImpl.post_request,
    PasswordlessApiClientImpl.get_request, PasswordlessApiClientImpl.build_url,
    PasswordlessApiClientImpl.build_headers.
  rewrite Ho. reflexivity.
Qed.

Lemma send_request_same_exchange S self self' request w :
  same_exchange self self' →
  PasswordlessApiClientImpl.send_request S self request w
  = PasswordlessApiClientImpl.send_request S self' request w.
Proof.
  intros [Hp Hsend].
  unfold PasswordlessApiClientImpl.send_request, Session_send, Session_prepare_request.
  run. rewrite Hp, Hsend. reflexivity.
Qed.

(** X9: every operation calls the transport with [allow_redirects=True]
    and [timeout=30] and with nothing else: two clients of the same
    configuration whose sessions agree on such calls cannot be told apart
    by any operation, however the sessions differ on other calls. *)
Theorem transport_options_are_fixed S self self' op w :
  PasswordlessApiClientImpl.options self = PasswordlessApiClientImpl.options self' →
  same_exchange self self' →
  invoke S self op w = invoke S self' op w.
Proof.
  intros Ho He. rewrite !invoke_send_request.
  by rewrite (request_of_options _ _ _ _ Ho), (send_request_same_exchange _ _ _ _ _ He).
Qed.

Lemma transport_options_are_fixed_witness :
  let response := Stub.response 200 None (Text.dq "{'values': []}") in
  let self := PasswordlessApiClientImpl.init Stub.options (strict_session 1 response) in
  let self' := Stub.client (Return response) in
  PasswordlessApiClientImpl.options self = PasswordlessApiClientImpl.options self'
  ∧ same_exchange self self'
  ∧ invoke Stub.schemas self GetUsersOp Stub.world
    = invoke Stub.schemas self' GetUsersOp Stub.world.
Proof.
  intros response self self'.
  assert (He : same_exchange self self') by (split; intros; reflexivity).
  split; [reflexivity|]. split; [exact He|].
  exact (transport_options_are_fixed Stub.schemas self self' GetUsersOp Stub.world
           eq_refl He).
Defined.

(** X10: the body of the request an operation hands to the session is the
    encoding of its argument by the operation's own request schema for the
    six POST operations, and absent for the three GET operations. *)
Theorem request_body_is_encoded_argument S self op :
  let request := request_of S self op in
  transmits (invoke S self op) request
  ∧ Request.data request
    = match op with
      | CreateAliasOp x => Some (dumps (CreateAliasSchema S) x)
      | UpdateAppsFeatureOp x => Some (dumps (UpdateAppsFeatureSchema S) x)
      | DeleteCredentialOp x => Some (dumps (DeleteCredentialSchema S) x)
      | RegisterTokenOp x => Some (dumps (RegisterTokenSchema S) x)
      | SignInOp x => Some (dumps (VerifySignInSchema S) x)
      | DeleteUserOp x => Some (dumps (DeleteUserSchema S) x)
      | GetAliasesOp _ | GetCredentialsOp _ | GetUsersOp => None
      end.
Proof.
  intros request. split; [apply invoke_transmits|].
  subst request. destruct op; reflexivity.
Qed.





(** ** Builders and sessions *)

(** X13: two builders made without a session never share one: each
    constructs its own default session, the two are distinct, both are
    recorded as constructed, and each builder keeps its own
    configuration. *)
Theorem default_sessions_are_distinct network_prepare network_send options1 options2 w :
  ∃ builder1 builder2 w',
    (builder1 ← PasswordlessApiClientBuilder.init network_prepare network_send
                  options1 None;
     builder2 ← PasswordlessApiClientBuilder.init network_prepare network_send
                  options2 None;
     mret (builder1, builder2)) w
    = (Return (builder1, builder2), w')
    ∧ Session.session_id (PasswordlessApiClientBuilder.session builder1)
      ≠ Session.session_id (PasswordlessApiClientBuilder.session builder2)
    ∧ Session.session_id (PasswordlessApiClientBuilder.session builder1) ∈ sessions w'
    ∧ Session.session_id (PasswordlessApiClientBuilder.session builder2) ∈ sessions w'
    ∧ PasswordlessApiClientBuilder.options builder1 = options1
    ∧ PasswordlessApiClientBuilder.options builder2 = options2.
Proof.
  eexists _, _, _. split; [reflexivity|]. simpl.
  pose proof (is_fresh ({[fresh (sessions w)]} ∪ sessions w)) as Hfresh.
  repeat split; [|set_solver|set_solver].
  intros Heq. apply Hfresh. rewrite <- Heq. set_solver.
Qed.

(** ** The expiry of registration tokens *)

(** X14: every token built without [expires_at] gets one and the same
    expiry, two minutes after the import of [models.py], whenever it is
    built; a token built with an explicit [expires_at] keeps the one it was
    given. *)
Theorem default_expiry_is_shared delay1 delay2 user1 user2 explicit w :
  ∃ token1 token2 token3 w',
    (cls ← RegisterToken.define;
     elapse delay1;;
     token1 ← RegisterToken.init cls user1 user1 user1 None None None None None None None;
     elapse delay2;;
     token2 ← RegisterToken.init cls user2 user2 user2 None None None None None None None;
     token3 ← RegisterToken.init cls user2 user2 user2 None None None None None None
                (Some explicit);
     mret (token1, token2, token3)) w
    = (Return (token1, token2, token3), w')
    ∧ clock w' = clock w + delay1 + delay2
    ∧ RegisterToken.expires_at token1 = clock w + timedelta_minutes 2
    ∧ RegisterToken.expires_at token2 = RegisterToken.expires_at token1
    ∧ RegisterToken.expires_at token3 = explicit.
Proof.
  eexists _, _, _, _. split; [reflexivity|]. simpl. repeat split; reflexivity.
Qed.
